(** * preprocessy.resampling._split : the [Split] class

    A shallow embedding of [Split.__validate_input] and
    [Split.train_test_split] (src/preprocessy/resampling/_split.py) and
    the properties of the train/test split that follow from the code.

    Python values are a small tagged union, floats are IEEE binary64
    (Rocq's primitive floats), the [params] dictionary is a finite map on
    strings, and the mutable objects of a call (the [Split] instance,
    [params], numpy's global generator) are threaded through a state and
    exception monad. *)

From Stdlib Require Import ZArith Floats Ascii String.
From stdpp Require Import gmap strings list pretty.

Set Warnings "-inexact-float".
Set Default Proof Using "Type".

(** ** Python values *)

(** A cell of a table. *)
Inductive cell :=
| CInt (z : Z)
| CFloat (f : float)
| CStr (s : string).

(** A column label or a series name. *)
Inductive label :=
| LInt (z : Z)
| LStr (s : string).

Global Instance label_eq_dec : EqDecision label.
Proof. solve_decision. Defined.

(** [pandas.Series]: an optional name and the values with their index
    labels. *)
Record Series := mkSeries {
  name : option label;
  items : list (Z * cell)
}.

(** [pandas.DataFrame]: the column labels and the rows, each with its
    index label. *)
Record DataFrame := mkFrame {
  columns : list label;
  body : list (Z * list cell)
}.

Inductive pyval :=
| PyNone
| PyBool (b : bool)
| PyInt (z : Z)
| PyFloat (f : float)
| PyStr (s : string)
| PyList (l : list cell)
| PyFrame (d : DataFrame)
| PySeries (s : Series).

(** Exceptions, by class, with their message. *)
Inductive exn :=
| ValueError (msg : string)
| TypeError (msg : string)
| AttributeError (msg : string)
| OverflowError (msg : string)
| KeyError (msg : string)
| InvalidIndexError (msg : string).

Definition nl : string := String "010"%char EmptyString.

Definition type_name (v : pyval) : string :=
  match v with
  | PyNone => "NoneType"
  | PyBool _ => "bool"
  | PyInt _ => "int"
  | PyFloat _ => "float"
  | PyStr _ => "str"
  | PyList _ => "list"
  | PyFrame _ => "DataFrame"
  | PySeries _ => "Series"
  end.

(** ** The state and exception monad *)

Definition SE (S A : Type) : Type := S → (exn + A) * S.

Global Instance SE_ret {S} : MRet (SE S) := λ A a s, (inr a, s).
Global Instance SE_bind {S} : MBind (SE S) := λ A B f m s,
  match m s with
  | (inr a, s') => f a s'
  | (inl e, s') => (inl e, s')
  end.

Definition raise {S A} (e : exn) : SE S A := λ s, (inl e, s).
Definition get {S} : SE S S := λ s, (inr s, s).
Definition gets {S A} (f : S → A) : SE S A := λ s, (inr (f s), s).
Definition modify {S} (f : S → S) : SE S unit := λ s, (inr tt, f s).
(** A pure computation that may raise. *)
Definition lift {S A} (r : exn + A) : SE S A := λ s, (r, s).
(** Run a computation on a component of the state. *)
Definition zoom {S T A} (proj : S → T) (upd : T → S → S) (m : SE T A) : SE S A :=
  λ s, let '(r, t) := m (proj s) in (r, upd t s).
Definition when {S} (b : bool) (m : SE S unit) : SE S unit :=
  if b then m else mret tt.

(** Pure computations that may raise. *)
Global Instance result_ret : MRet (sum exn) := λ A a, inr a.
Global Instance result_bind : MBind (sum exn) := λ A B f r,
  match r with
  | inr a => f a
  | inl e => inl e
  end.

(** ** Builtins *)

(** [isinstance(v, int)]: [bool] is a subclass of [int]. *)
Definition isinstance_int (v : pyval) : bool :=
  match v with PyInt _ | PyBool _ => true | _ => false end.

Definition isinstance_float (v : pyval) : bool :=
  match v with PyFloat _ => true | _ => false end.


Definition isinstance_Series (v : pyval) : bool :=
  match v with PySeries _ => true | _ => false end.

Definition is_None (v : pyval) : bool :=
  match v with PyNone => true | _ => false end.

(** [isinstance(v, t)] where [t] is a value that is not a class: every
    value of [pyval] is such a [t]. *)
Definition isinstance_of_value (v t : pyval) : exn + bool :=
  inl (TypeError "isinstance() arg 2 must be a type, a tuple of types, or a union").

(** Truth value, as [if v:] tests it. pandas refuses it for its
    containers. *)
Definition truth (v : pyval) : exn + bool :=
  match v with
  | PyNone => inr false
  | PyBool b => inr b
  | PyInt z => inr (negb (z =? 0)%Z)
  | PyFloat f => inr (negb (f =? 0)%float)
  | PyStr s => inr (negb (String.eqb s EmptyString))
  | PyList l => inr (negb (bool_decide (l = [])))
  | PyFrame _ =>
      inl (ValueError "The truth value of a DataFrame is ambiguous. Use a.empty, a.bool(), a.item(), a.any() or a.all().")
  | PySeries _ =>
      inl (ValueError "The truth value of a Series is ambiguous. Use a.empty, a.bool(), a.item(), a.any() or a.all().")
  end.

(** [float(z)] for an int: round to nearest even, overflow beyond the
    binary64 range. *)
Definition Z_to_float (z : Z) : float :=
  SF2Prim (binary_normalize prec emax z 0 false).

Definition float_of_int (z : Z) : exn + float :=
  let f := Z_to_float z in
  if is_infinity f then inl (OverflowError "int too large to convert to float")
  else inr f.

(** [int(f)] for a float: truncation toward zero. *)
Definition int_of_float (f : float) : exn + Z :=
  match Prim2SF f with
  | S754_zero _ => inr 0%Z
  | S754_infinity _ => inl (OverflowError "cannot convert float infinity to integer")
  | S754_nan => inl (ValueError "cannot convert float NaN to integer")
  | S754_finite s m e =>
      let a := Z.shiftl (Z.pos m) e in
      inr (if s then (- a)%Z else a)
  end.

(** The numeric tower: [bool] and [int] are exact, [float] is binary64. *)
Inductive num :=
| NInt (z : Z)
| NFloat (f : float).

Definition as_num (v : pyval) : option num :=
  match v with
  | PyBool b => Some (NInt (Z.b2z b))
  | PyInt z => Some (NInt z)
  | PyFloat f => Some (NFloat f)
  | _ => None
  end.

Definition unsupported (op : string) (a b : pyval) : exn :=
  TypeError ("unsupported operand type(s) for " +:+ op +:+ ": '" +:+
             type_name a +:+ "' and '" +:+ type_name b +:+ "'").

(** [a - b] on numbers. The operands that reach a subtraction in
    [__validate_input] have passed a truth test, so no pandas container
    is among them. *)
Definition py_sub (a b : pyval) : exn + pyval :=
  match as_num a, as_num b with
  | Some (NInt x), Some (NInt y) => inr (PyInt (x - y))
  | Some (NFloat x), Some (NFloat y) => inr (PyFloat (x - y))
  | Some (NInt x), Some (NFloat y) =>
      x' ← float_of_int x; inr (PyFloat (x' - y))
  | Some (NFloat x), Some (NInt y) =>
      y' ← float_of_int y; inr (PyFloat (x - y'))
  | _, _ => inl (unsupported "-" a b)
  end.

(** [a + b] with a number on the left. *)
Definition py_add (a b : pyval) : exn + pyval :=
  match as_num a, as_num b with
  | Some (NInt x), Some (NInt y) => inr (PyInt (x + y))
  | Some (NFloat x), Some (NFloat y) => inr (PyFloat (x + y))
  | Some (NInt x), Some (NFloat y) =>
      x' ← float_of_int x; inr (PyFloat (x' + y))
  | Some (NFloat x), Some (NInt y) =>
      y' ← float_of_int y; inr (PyFloat (x + y'))
  | _, _ => inl (unsupported "+" a b)
  end.

(** [v != n] for an int [n]: numbers compare by value (an int and a
    float exactly), anything else is different from a number. *)
Definition py_ne_int (v : pyval) (n : Z) : bool :=
  match as_num v with
  | Some (NInt x) => negb (x =? n)%Z
  | Some (NFloat f) =>
      match Prim2SF f with
      | S754_zero _ => negb (n =? 0)%Z
      | S754_finite s m e =>
          if (e <? 0)%Z && negb (Z.shiftl (Z.shiftl (Z.pos m) e) (- e) =? Z.pos m)%Z
          then true
          else negb ((if s then - Z.shiftl (Z.pos m) e else Z.shiftl (Z.pos m) e) =? n)%Z
      | _ => true
      end
  | None => true
  end.

(** [v < n] and [v > n] for a number [v] and an int [n], as the range
    checks use them (under an [isinstance] guard). *)
Definition num_lt_int (v : num) (n : Z) : bool :=
  match v with
  | NInt x => (x <? n)%Z
  | NFloat f => (f <? Z_to_float n)%float
  end.

Definition num_gt_int (v : num) (n : Z) : bool :=
  match v with
  | NInt x => (n <? x)%Z
  | NFloat f => (Z_to_float n <? f)%float
  end.

(** [repr(type(v))], as an f-string prints it. *)
Definition class_repr (v : pyval) : string :=
  match v with
  | PyFrame _ => "<class 'pandas.core.frame.DataFrame'>"
  | PySeries _ => "<class 'pandas.core.series.Series'>"
  | _ => "<class '" +:+ type_name v +:+ "'>"
  end.

(** [v < n] and [v > n] on a value; the code evaluates them only under
    an [isinstance(v, float)] or [isinstance(v, int)] guard. *)
Definition py_lt_int (v : pyval) (n : Z) : bool :=
  match as_num v with Some x => num_lt_int x n | None => false end.

Definition py_gt_int (v : pyval) (n : Z) : bool :=
  match as_num v with Some x => num_gt_int x n | None => false end.

(** ** Tables *)

(** Modelled from the spec: [num_of_samples] of [preprocessy.utils],
    which is not among the sources; the spec gives it as the function
    returning the row count of a tabular input, never raising on one. *)
Definition num_of_samples (d : DataFrame) : nat := length (body d).

(** [v.shape[0]]: pandas containers have a shape, the other values of
    [pyval] have no such attribute. *)
Definition shape0 (v : pyval) : exn + nat :=
  match v with
  | PyFrame d => inr (length (body d))
  | PySeries s => inr (length (items s))
  | _ => inl (AttributeError ("'" +:+ type_name v +:+ "' object has no attribute 'shape'"))
  end.

(** ** The [Split] instance *)

Record Split := mkSplit {
  df : pyval;
  X : pyval;
  y : pyval;
  test_size : pyval;
  train_size : pyval;
  random_state : pyval
}.

(** [Split.__init__] *)
Definition __init__ : Split :=
  {| df := PyNone; X := PyNone; y := PyNone;
     test_size := PyNone; train_size := PyNone;
     random_state := PyInt 69 |}.

Definition set_df (v : pyval) (s : Split) : Split :=
  {| df := v; X := X s; y := y s; test_size := test_size s;
     train_size := train_size s; random_state := random_state s |}.
Definition set_X (v : pyval) (s : Split) : Split :=
  {| df := df s; X := v; y := y s; test_size := test_size s;
     train_size := train_size s; random_state := random_state s |}.
Definition set_y (v : pyval) (s : Split) : Split :=
  {| df := df s; X := X s; y := v; test_size := test_size s;
     train_size := train_size s; random_state := random_state s |}.
Definition set_test_size (v : pyval) (s : Split) : Split :=
  {| df := df s; X := X s; y := y s; test_size := v;
     train_size := train_size s; random_state := random_state s |}.
Definition set_train_size (v : pyval) (s : Split) : Split :=
  {| df := df s; X := X s; y := y s; test_size := test_size s;
     train_size := v; random_state := random_state s |}.
Definition set_random_state (v : pyval) (s : Split) : Split :=
  {| df := df s; X := X s; y := y s; test_size := test_size s;
     train_size := train_size s; random_state := v |}.

(** The exceptions [__validate_input] raises, under the names the
    specification gives to their kinds. *)
Definition MissingInputError : exn :=
  ValueError "Feature dataframe should not be of None".

Definition TypeMismatchError_X : exn :=
  TypeError ("Feature dataframe is not a valid dataframe." +:+ nl +:+
             "Expected object type: pandas.core.frame.DataFrame").

Definition ShapeMismatchError (nX ny : nat) : exn :=
  ValueError ("Number of samples of target label and feature dataframe unequal." +:+ nl +:+
              "Samples in feature dataframe: " +:+ pretty nX +:+ nl +:+
              "Samples in target label: " +:+ pretty ny).

Definition TypeMismatchError_y : exn :=
  TypeError ("Target label is not a valid dataframe." +:+ nl +:+
             "Expected object type: pandas.core.series.Series").

Definition TypeMismatchError_test_size : exn :=
  TypeError "test_size must be of type int or float".

Definition TypeMismatchError_train_size : exn :=
  TypeError "train_size must be of type int or float".

Definition TypeMismatchError_sizes (ts tr : pyval) : exn :=
  TypeError ("Data types of test_size and train_size do not match." +:+ nl +:+
             "test_size: " +:+ class_repr ts +:+ "." +:+ nl +:+
             "train_size: " +:+ class_repr tr).

Definition ValueRangeError_sum_1 : exn :=
  ValueError "test_size + train_size should be equal to 1".

Definition ValueRangeError_sum_n : exn :=
  ValueError "test_size + train_size not equal to number of samples".

Definition ValueRangeError_fraction (field : string) : exn :=
  ValueError (field +:+ " should be between 0 and 1").

Definition ValueRangeError_count (field : string) (n_samples : nat) : exn :=
  ValueError (field +:+ " should be between 0 and " +:+ pretty n_samples).

Definition TypeMismatchError_random_state : exn :=
  TypeError "random_state should be of type int".

Definition MissingNameError (shown : string) : exn :=
  ValueError ("Target column needs to have a name. $" +:+ shown +:+ " was provided.").

(** Lines 76-87: the checks on a target that is not [None]. *)
Definition validate_y (dX : DataFrame) (n_samples : nat) : SE Split unit :=
  self ← get;
  if is_None (y self) then mret tt
  else
    ny ← lift (shape0 (y self));
    when (negb (n_samples =? ny)) (raise (ShapeMismatchError (length (body dX)) ny));;
    when (negb (isinstance_Series (y self))) (raise TypeMismatchError_y).

(** Lines 89-114: both sizes are set. *)
Definition validate_both_sizes (n_samples : nat) : SE Split unit :=
  self ← get;
  let ts := test_size self in
  let tr := train_size self in
  when (negb (isinstance_int ts) || negb (isinstance_float ts))
       (raise TypeMismatchError_test_size);;
  when (negb (isinstance_int tr) || negb (isinstance_float tr))
       (raise TypeMismatchError_train_size);;
  same ← lift (isinstance_of_value ts tr);
  when (negb same) (raise (TypeMismatchError_sizes ts tr));;
  bad_1 ← (if isinstance_float ts
           then s ← lift (py_add ts tr); mret (py_ne_int s 1)
           else mret false);
  if bad_1 : bool then raise ValueRangeError_sum_1
  else
    bad_n ← (if isinstance_int ts
             then s ← lift (py_add ts tr); mret (py_ne_int s (Z.of_nat n_samples))
             else mret false);
    when bad_n (raise ValueRangeError_sum_n).

(** Lines 117-131 and 134-148: one size is set; [v] is that size,
    [field] its name and [set_other] stores the complement. *)
Definition validate_one_size (n_samples : nat) (field : string) (v : pyval)
    (set_other : pyval → Split → Split) : SE Split unit :=
  when (isinstance_float v && (py_lt_int v 0 || py_gt_int v 1))
       (raise (ValueRangeError_fraction field));;
  when (isinstance_int v && (py_lt_int v 0 || py_gt_int v (Z.of_nat n_samples)))
       (raise (ValueRangeError_count field n_samples));;
  other ← lift (if isinstance_float v then py_sub (PyInt 1) v
                else py_sub (PyInt (Z.of_nat n_samples)) v);
  modify (set_other other).

(** Lines 150-157: no size is set. *)
Definition default_sizes (dX : DataFrame) : SE Split unit :=
  self ← get;
  if is_None (y self) then
    modify (set_test_size (PyFloat 0.2));;
    modify (set_train_size (PyFloat 0.8))
  else
    let features := length (columns dX) in
    let t := (1 / PrimFloat.sqrt (Z_to_float (Z.of_nat features)))%float in
    modify (set_test_size (PyFloat t));;
    tr ← lift (py_sub (PyInt 1) (PyFloat t));
    modify (set_train_size tr).

(** [Split.__validate_input] *)
Definition __validate_input : SE Split unit :=
  self ← get;
  match X self with
  | PyNone => raise MissingInputError
  | PyFrame dX =>
      let n_samples := num_of_samples dX in
      validate_y dX n_samples;;
      has_test ← lift (truth (test_size self));
      both ← (if has_test : bool then lift (truth (train_size self)) else mret false);
      (if both : bool then validate_both_sizes n_samples
       else
         has_test ← lift (truth (test_size self));
         if has_test : bool then
           validate_one_size n_samples "test_size" (test_size self) set_train_size
         else
           has_train ← lift (truth (train_size self));
           if has_train : bool then
             validate_one_size n_samples "train_size" (train_size self) set_test_size
           else default_sizes dX);;
      when (negb (isinstance_int (random_state self)))
           (raise TypeMismatchError_random_state)
  | _ => raise TypeMismatchError_X
  end.

(** ** Predicates on the validation *)

(** The checks on the target pass. *)
Definition target_ok (dX : DataFrame) (vy : pyval) : Prop :=
  vy = PyNone ∨ ∃ sy, vy = PySeries sy ∧ length (items sy) = num_of_samples dX.

(** The check of [random_state] that ends [__validate_input]. *)
Definition check_random_state (s0 : Split) : SE Split unit :=
  when (negb (isinstance_int (random_state s0))) (raise TypeMismatchError_random_state).

(** The range rule and the complement of one size [v] (a float or an
    int) for a table of [n] rows: the result of [validate_one_size]. *)
Definition complement_of (n : nat) (field : string) (v : pyval) : option (exn + pyval) :=
  match v with
  | PyFloat f =>
      Some (if ((f <? 0) || (1 <? f))%float
            then inl (ValueRangeError_fraction field)
            else inr (PyFloat (1 - f)))
  | PyInt z =>
      Some (if ((z <? 0) || (Z.of_nat n <? z))%Z
            then inl (ValueRangeError_count field n)
            else inr (PyInt (Z.of_nat n - z)))
  | _ => None
  end.


(** ** pandas operations used by [train_test_split] *)

Definition label_repr (c : label) : string :=
  match c with
  | LInt z => pretty z
  | LStr s => "'" +:+ s +:+ "'"
  end.

(** [d.iloc[positions]]: the rows at the given positions, in that order;
    a position out of range raises. *)
Definition iloc_take (d : DataFrame) (positions : list nat) : exn + DataFrame :=
  match mapM (λ i, body d !! i) positions with
  | Some rows => inr {| columns := columns d; body := rows |}
  | None => inl (ValueError "positional indexers are out-of-bounds")
  end.

(** [d.reset_index(drop=True)]: the index becomes 0, 1, ... *)
Definition reset_index (d : DataFrame) : DataFrame :=
  {| columns := columns d;
     body := imap (λ i r, (Z.of_nat i, r.2)) (body d) |}.

(** Where a slice bound [i] falls in a sequence of length [n] (Python's
    clamping; a negative bound counts from the end). *)
Definition slice_bound (n : nat) (i : option Z) (open : nat) : nat :=
  match i with
  | None => open
  | Some i =>
      if (i <? 0)%Z then Z.to_nat (Z.max 0 (Z.of_nat n + i))
      else Z.to_nat (Z.min i (Z.of_nat n))
  end.

(** [d.iloc[i:]] *)
Definition iloc_from (d : DataFrame) (i : option Z) : DataFrame :=
  {| columns := columns d;
     body := drop (slice_bound (length (body d)) i 0) (body d) |}.

(** [d.iloc[:i]] *)
Definition iloc_upto (d : DataFrame) (i : option Z) : DataFrame :=
  {| columns := columns d;
     body := take (slice_bound (length (body d)) i (length (body d))) (body d) |}.

(** How pandas prints an indexer in its message: [str(v)]. *)
Definition indexer_text (v : pyval) : string :=
  match v with
  | PyBool true => "True"
  | PyBool false => "False"
  | PyInt z => pretty z
  | PyStr s => s
  | _ => type_name v
  end.

(** A value as the bound of a positional slice on the reset index (a
    RangeIndex): [None] leaves the slice open, an int is a position,
    pandas refuses anything else ([bool] included). After validation
    the size is a number, and a float takes the other branch of the
    cut, so an int or a bool is what arrives here. *)
Definition positional_bound (v : pyval) : exn + option Z :=
  match v with
  | PyNone => inr None
  | PyInt z => inr (Some z)
  | _ => inl (TypeError ("cannot do positional indexing on RangeIndex with these indexers [" +:+
                         indexer_text v +:+ "] of type " +:+ type_name v))
  end.

(** The positions of the columns labelled [c]. *)
Definition column_positions (d : DataFrame) (c : label) : list nat :=
  (filter (λ ic, ic.2 = c) (imap pair (columns d))).*1.

(** [d[c]]: a Series when one column has the label, a DataFrame when
    several have it. *)
Definition getitem (d : DataFrame) (c : label) : exn + pyval :=
  match column_positions d c with
  | [] => inl (KeyError (label_repr c))
  | [i] =>
      inr (PySeries {| name := Some c;
                       items := (λ r, (r.1, default (CFloat nan) (r.2 !! i))) <$> body d |})
  | ps =>
      inr (PyFrame {| columns := (λ _, c) <$> ps;
                      body := (λ r, (r.1, omap (λ i, r.2 !! i) ps)) <$> body d |})
  end.

(** [d.drop([c], axis=1)]: without the columns labelled [c]. *)
Definition drop_columns (d : DataFrame) (c : label) : exn + DataFrame :=
  let ps := column_positions d c in
  if bool_decide (ps = []) then
    inl (KeyError ("[" +:+ label_repr c +:+ "] not found in axis"))
  else
    inr {| columns := filter (λ l, l ≠ c) (columns d);
           body := (λ r, (r.1, (filter (λ ic, ic.1 ∉ ps) (imap pair r.2)).*2)) <$> body d |}.

(** Truth value of a series name, and how an f-string shows it. *)
Definition name_truth (o : option label) : bool :=
  match o with
  | None => false
  | Some (LInt z) => negb (z =? 0)%Z
  | Some (LStr s) => negb (String.eqb s EmptyString)
  end.

Definition name_shown (o : option label) : string :=
  match o with
  | None => "None"
  | Some (LInt z) => pretty z
  | Some (LStr s) => s
  end.

(** [operator.index(v)], by which numpy reads a seed. *)
Definition as_index (v : pyval) : option Z :=
  match v with
  | PyInt z => Some z
  | PyBool b => Some (Z.b2z b)
  | _ => None
  end.

(** ** numpy and pandas as the code relies on them *)

(** numpy's legacy global generator, over the type [rng_state] of its
    states: the state [np.random.seed] installs and
    [np.random.permutation n], which returns a permutation of [range(n)]
    and advances the state. *)
Class NumpyRandom (rng_state : Type) := {
  np_seed : Z → rng_state;
  np_permutation : nat → rng_state → list nat * rng_state;
  np_permutation_perm : ∀ n g, (np_permutation n g).1 ≡ₚ seq 0 n
}.

(** [pd.concat([X, y], axis=1)] pairs the rows by index label. When the
    two indexes are equal this is the row-by-row join below; what it
    builds from different indexes is left to [concat_unaligned]. *)
Class PandasConcat := {
  concat_unaligned : DataFrame → Series → exn + DataFrame
}.

Section split.
Context {rng_state : Type} `{!NumpyRandom rng_state, !PandasConcat}.

(** A series enters a frame under its name, or under 0 without one. *)
Definition series_label (s : Series) : label := default (LInt 0) (name s).

Definition join_rows (dX : DataFrame) (s : Series) : DataFrame :=
  {| columns := columns dX ++ [series_label s];
     body := zip_with (λ r c, (r.1, r.2 ++ [c.2])) (body dX) (items s) |}.

Definition concat_axis1 (vX vy : pyval) : exn + DataFrame :=
  match vX, vy with
  | PyFrame dX, PySeries s =>
      if bool_decide ((body dX).*1 = (items s).*1) then inr (join_rows dX s)
      else concat_unaligned dX s
  | _, _ =>
      inl (TypeError "cannot concatenate object of this type; only Series and DataFrame objs are valid")
  end.

(** The objects a call works on: the instance, the caller's [params]
    dictionary and numpy's global generator. *)
Record world := mkWorld {
  self : Split;
  params : gmap string pyval;
  np_random : rng_state
}.

Definition with_self (s : Split) (w : world) : world :=
  {| self := s; params := params w; np_random := np_random w |}.
Definition with_params (p : gmap string pyval) (w : world) : world :=
  {| self := self w; params := p; np_random := np_random w |}.
Definition with_np_random (g : rng_state) (w : world) : world :=
  {| self := self w; params := params w; np_random := g |}.

Definition on_self (f : Split → Split) (w : world) : world :=
  with_self (f (self w)) w.

(** [if key in params.keys(): self.field = params[key]] *)
Definition load (key : string) (set_field : pyval → Split → Split) : SE world unit :=
  w ← get;
  match params w !! key with
  | Some v => modify (on_self (set_field v))
  | None => mret tt
  end.

(** Lines 206-215. *)
Definition configure : SE world unit :=
  load "X" set_X;;
  load "y" set_y;;
  load "test_size" set_test_size;;
  load "train_size" set_train_size;;
  load "random_state" set_random_state.

(** [np.random.seed(v)] *)
Definition np_random_seed (v : pyval) : SE world unit :=
  match as_index v with
  | Some s =>
      if (0 <=? s)%Z && (s <? 2 ^ 32)%Z then modify (with_np_random (np_seed s))
      else raise (ValueError "Seed must be between 0 and 2**32 - 1")
  | None => raise (TypeError "Cannot cast scalar to an integer seed")
  end.

(** [np.random.permutation(n)] on the global generator. *)
Definition np_random_permutation (n : nat) : SE world (list nat) :=
  w ← get;
  let '(perm, g) := np_permutation n (np_random w) in
  modify (with_np_random g);;
  mret perm.

(** [len(self.df)], [self.df] being a table. *)
Definition frame_of (v : pyval) : exn + DataFrame :=
  match v with
  | PyFrame d => inr d
  | _ => inl (TypeError ("object of type '" +:+ type_name v +:+ "' is not a table"))
  end.

(** Lines 219-228: seed, join and shuffle; the result is the new
    [self.df]. *)
Definition shuffle : SE world DataFrame :=
  s ← gets self;
  np_random_seed (random_state s);;
  (if negb (is_None (y s)) then
     d ← lift (concat_axis1 (X s) (y s));
     modify (on_self (set_df (PyFrame d)))
   else modify (on_self (set_df (X s))));;
  s ← gets self;
  d ← lift (frame_of (df s));
  perm ← np_random_permutation (length (body d));
  d' ← lift (iloc_take d perm);
  let d' := reset_index d' in
  modify (on_self (set_df (PyFrame d')));;
  mret d'.

(** Lines 229-235: the two blocks, [(train, test)]. *)
Definition partition (d : DataFrame) : SE world (DataFrame * DataFrame) :=
  s ← gets self;
  match test_size s with
  | PyFloat f =>
      n ← lift (float_of_int (Z.of_nat (length (body d))));
      index ← lift (int_of_float (f * n));
      mret (iloc_from d (Some index), iloc_upto d (Some index))
  | v =>
      i ← lift (positional_bound v);
      mret (iloc_from d i, iloc_upto d i)
  end.

(** Lines 237-253: separate the target and write the results into
    [params]. *)
Definition emit (train test : DataFrame) : SE world unit :=
  s ← gets self;
  match y s with
  | PyNone =>
      modify (λ w, with_params (<["train" := PyFrame train]> (params w)) w);;
      modify (λ w, with_params (<["test" := PyFrame test]> (params w)) w)
  | PySeries sy =>
      match name sy with
      | Some c =>
          if name_truth (name sy) then
            y_train ← lift (getitem train c);
            X_train ← lift (drop_columns train c);
            y_test ← lift (getitem test c);
            X_test ← lift (drop_columns test c);
            modify (λ w, with_params (<["X_train" := PyFrame X_train]> (params w)) w);;
            modify (λ w, with_params (<["X_test" := PyFrame X_test]> (params w)) w);;
            modify (λ w, with_params (<["y_train" := y_train]> (params w)) w);;
            modify (λ w, with_params (<["y_test" := y_test]> (params w)) w)
          else raise (MissingNameError (name_shown (name sy)))
      | None => raise (MissingNameError (name_shown (name sy)))
      end
  | v => raise (AttributeError ("'" +:+ type_name v +:+ "' object has no attribute 'name'"))
  end.

(** [Split.train_test_split(params)] *)
Definition train_test_split : SE world unit :=
  configure;;
  zoom self with_self __validate_input;;
  d ← shuffle;
  '(train, test) ← partition d;
  emit train test.

(** ** The call as a function of the configured fields

    The stages of [train_test_split] after validation, written as pure
    functions of the fields they read; the lemmas [shuffle_spec],
    [partition_spec], [emit_spec] and [train_test_split_spec] below
    relate them to the code. *)

(** The fields after lines 206-215: a key of [params] replaces the
    field, an absent key leaves it as it was. *)
Definition configured_self (s : Split) (p : gmap string pyval) : Split :=
  {| df := df s;
     X := default (X s) (p !! "X");
     y := default (y s) (p !! "y");
     test_size := default (test_size s) (p !! "test_size");
     train_size := default (train_size s) (p !! "train_size");
     random_state := default (random_state s) (p !! "random_state") |}.

Definition configured (w : world) : world :=
  with_self (configured_self (self w) (params w)) w.

(** The shuffled table and the generator after it. *)
Definition draw (vX vy vrs : pyval) : exn + DataFrame * rng_state :=
  match as_index vrs with
  | Some s =>
      if (0 <=? s)%Z && (s <? 2 ^ 32)%Z then
        joined ← (if negb (is_None vy) then concat_axis1 vX vy else frame_of vX);
        let '(perm, g) := np_permutation (length (body joined)) (np_seed s) in
        d ← iloc_take joined perm;
        inr (reset_index d, g)
      else inl (ValueError "Seed must be between 0 and 2**32 - 1")
  | None => inl (TypeError "Cannot cast scalar to an integer seed")
  end.

(** The two blocks [(train, test)] of a shuffled table. *)
Definition blocks (vts : pyval) (d : DataFrame) : exn + DataFrame * DataFrame :=
  match vts with
  | PyFloat f =>
      n ← float_of_int (Z.of_nat (length (body d)));
      index ← int_of_float (f * n);
      inr (iloc_from d (Some index), iloc_upto d (Some index))
  | v =>
      i ← positional_bound v;
      inr (iloc_from d i, iloc_upto d i)
  end.

(** The entries written into [params], in the order of the writes. *)
Definition outputs (vy : pyval) (train test : DataFrame) : exn + list (string * pyval) :=
  match vy with
  | PyNone => inr [("train", PyFrame train); ("test", PyFrame test)]
  | PySeries sy =>
      match name sy with
      | Some c =>
          if name_truth (name sy) then
            y_train ← getitem train c;
            X_train ← drop_columns train c;
            y_test ← getitem test c;
            X_test ← drop_columns test c;
            inr [("X_train", PyFrame X_train); ("X_test", PyFrame X_test);
                 ("y_train", y_train); ("y_test", y_test)]
          else inl (MissingNameError (name_shown (name sy)))
      | None => inl (MissingNameError (name_shown (name sy)))
      end
  | v => inl (AttributeError ("'" +:+ type_name v +:+ "' object has no attribute 'name'"))
  end.

Definition write (outs : list (string * pyval)) (p : gmap string pyval) : gmap string pyval :=
  foldl (λ p kv, <[kv.1 := kv.2]> p) p outs.

(** What a call does after a successful validation left the instance as
    [s]: the instance, the generator and the entries written. *)
Definition split_pure (s : Split) : exn + (Split * rng_state * list (string * pyval)) :=
  '(d, g) ← draw (X s) (y s) (random_state s);
  '(train, test) ← blocks (test_size s) d;
  outs ← outputs (y s) train test;
  inr (set_df (PyFrame d) s, g, outs).

(** The table that is shuffled: [X], joined with the target when there
    is one. *)
Definition joined_table (dX : DataFrame) (vy : pyval) : DataFrame :=
  match vy with
  | PySeries sy => join_rows dX sy
  | _ => dX
  end.

(** The target is on the index of [X]. *)
Definition row_aligned (dX : DataFrame) (vy : pyval) : Prop :=
  match vy with
  | PySeries sy => (body dX).*1 = (items sy).*1
  | _ => True
  end.

(** The cells of the rows of [d] at the positions [ps]. *)
Definition cells_at (d : DataFrame) (ps : list nat) : list (list cell) :=
  omap (λ i, snd <$> body d !! i) ps.

(** Two instances that differ at most in [df]. *)
Definition same_fields (s s' : Split) : Prop :=
  X s' = X s ∧ y s' = y s ∧ test_size s' = test_size s ∧
  train_size s' = train_size s ∧ random_state s' = random_state s.

(** The params that supply the five fields as the instance [s] would
    have them after configuration with [p]. *)
Definition supplied (s : Split) (p : gmap string pyval) : gmap string pyval :=
  let c := configured_self s p in
  <["X" := X c]> (<["y" := y c]> (<["test_size" := test_size c]>
    (<["train_size" := train_size c]> (<["random_state" := random_state c]> p)))).

(** What two calls share when the configured fields agree. *)
Definition same_outcome (w1 w2 : world)
    (r1 r2 : (exn + unit) * world) : Prop :=
  r1.1 = r2.1 ∧
  (r1.1 = inr tt →
   self r1.2 = self r2.2 ∧ np_random r1.2 = np_random r2.2 ∧
   ∃ outs, params r1.2 = write outs (params w1) ∧
           params r2.2 = write outs (params w2)).

(** A call from [w] to [w'] partitions a table [dX] of n rows: a permutation of [0, n) and a cut [k] give the two blocks. *)
Definition split_partitions (w w' : world) (dX : DataFrame) : Prop :=
  let joined := joined_table dX (y (self w')) in
  let n := num_of_samples dX in
  ∃ perm k train test outs,
    perm ≡ₚ seq 0 n ∧
    length (body joined) = n ∧
    (body test).*2 = cells_at joined (take k perm) ∧
    (body train).*2 = cells_at joined (drop k perm) ∧
    take k perm ## drop k perm ∧
    length (body train) + length (body test) = n ∧
    (body train).*2 ++ (body test).*2 ≡ₚ (body joined).*2 ∧
    outputs (y (self w')) train test = inr outs ∧
    params w' = write outs (params w).

End split.

(** ** A reference numpy and pandas

    One generator and one join that meet the interfaces above, on which
    the definitions can be run. *)
Module Reference.

(** A linear congruential step. *)
Definition lcg (g : Z) : Z := ((g * 1103515245 + 12345) mod 2 ^ 31)%Z.

(** Shuffle [0 .. n-1] by inserting each number at a drawn place. *)
Fixpoint shuffled (n : nat) (g : Z) : list nat * Z :=
  match n with
  | 0 => ([], g)
  | S k =>
      let '(l, g1) := shuffled k g in
      let g2 := lcg g1 in
      let j := Z.to_nat (g2 mod Z.of_nat (S k)) in
      (take j l ++ k :: drop j l, g2)
  end.

Lemma shuffled_perm n g : (shuffled n g).1 ≡ₚ seq 0 n.
Proof.
  revert g. induction n as [|k IH]; intros g; [done|].
  rewrite seq_S. cbn [shuffled]. specialize (IH g).
  destruct (shuffled k g) as [l g1]. cbn [fst] in *.
  rewrite <- Permutation_middle, (Permutation_app_comm _ [k]). cbn [app plus].
  by rewrite take_drop, IH.
Qed.

Global Instance numpy : NumpyRandom Z := {|
  np_seed s := s;
  np_permutation := shuffled;
  np_permutation_perm := shuffled_perm
|}.

(** A column of ints or floats, as against a column of objects. *)
Definition is_number (c : cell) : bool :=
  match c with CStr _ => false | _ => true end.

(** An int in a column that becomes float64. *)
Definition upcast (c : cell) : cell :=
  match c with CInt z => CFloat (Z_to_float z) | _ => c end.

Definition numeric_column (rows : list (Z * list cell)) (j : nat) : bool :=
  forallb (λ r, from_option is_number true (r.2 !! j)) rows.

(** Reindexing that leaves a hole turns every numeric column into
    float64; a column of objects keeps its cells. *)
Definition upcast_rows (rows : list (Z * list cell)) : list (Z * list cell) :=
  (λ r, (r.1, imap (λ j c, if numeric_column rows j then upcast c else c) r.2)) <$> rows.

Definition upcast_items (its : list (Z * cell)) : list (Z * cell) :=
  if forallb (λ i, is_number i.2) its then (λ i, (i.1, upcast i.2)) <$> its else its.

(** The outer join on two different indexes without repeated labels: the
    labels of [dX], then the new ones of [s]; a missing cell is NaN, and
    the side that gets one is upcast. Repeated labels are refused. *)
Definition outer_join (dX : DataFrame) (s : Series) : exn + DataFrame :=
  let iX := (body dX).*1 in
  let iy := (items s).*1 in
  if bool_decide (NoDup iX ∧ NoDup iy) then
    let holes_X := negb (forallb (λ l, bool_decide (l ∈ iX)) iy) in
    let holes_y := negb (forallb (λ l, bool_decide (l ∈ iy)) iX) in
    let rowsX : gmap Z (list cell) :=
      list_to_map (if holes_X then upcast_rows (body dX) else body dX) in
    let rowsy : gmap Z cell :=
      list_to_map (if holes_y then upcast_items (items s) else items s) in
    let blank := replicate (length (columns dX)) (CFloat nan) in
    inr {| columns := columns dX ++ [default (LInt 0) (name s)];
           body := (λ l, (l, default blank (rowsX !! l) ++
                             [default (CFloat nan) (rowsy !! l)]))
                     <$> (iX ++ filter (λ l, l ∉ iX) iy) |}
  else inl (InvalidIndexError "Reindexing only valid with uniquely valued Index objects").

Global Instance pandas : PandasConcat := {| concat_unaligned := outer_join |}.

(** A table of [n] rows and two numeric columns, and a series of [n]
    labels on the same index. *)
Definition table (n : nat) : DataFrame :=
  {| columns := [LStr "a"; LStr "b"];
     body := (λ i, (Z.of_nat i, [CInt (Z.of_nat i); CInt (Z.of_nat (i * i))])) <$> seq 0 n |}.

Definition target (nm : option label) (n : nat) : Series :=
  {| name := nm;
     items := (λ i, (Z.of_nat i, CInt (Z.of_nat (i mod 2)))) <$> seq 0 n |}.

(** A call on a fresh instance. *)
Definition fresh (p : gmap string pyval) : @world Z :=
  {| self := __init__; params := p; np_random := 0%Z |}.

Definition rows_of (v : option pyval) : option nat :=
  match v with
  | Some (PyFrame d) => Some (length (body d))
  | Some (PySeries s) => Some (length (items s))
  | _ => None
  end.

End Reference.

(** ** Concrete calls *)

Module Scenario.
Import Reference.

Definition label_y : option label := Some (LStr "label").

(** 10 rows, a named target, both sizes given. *)
Definition both_sizes : @world Z :=
  fresh {[ "X" := PyFrame (table 10);
           "y" := PySeries (target label_y 10);
           "test_size" := PyFloat 0.3;
           "train_size" := PyFloat 0.7;
           "random_state" := PyInt 0 ]}.

(** 10 rows, a named target, the test fraction only. *)
Definition fraction_only : @world Z :=
  fresh {[ "X" := PyFrame (table 10);
           "y" := PySeries (target label_y 10);
           "test_size" := PyFloat 0.3;
           "random_state" := PyInt 0 ]}.

(** 100 rows, the train count only. *)
Definition count_only : @world Z :=
  fresh {[ "X" := PyFrame (table 100); "train_size" := PyInt 10 ]}.

(** 5 rows and a test size of 0. *)
Definition zero_test_size : @world Z :=
  fresh {[ "X" := PyFrame (table 5); "test_size" := PyInt 0 ]}.

(** 5 rows, no size, without and with a target. *)
Definition no_size : @world Z :=
  fresh {[ "X" := PyFrame (table 5) ]}.

Definition no_size_target : @world Z :=
  fresh {[ "X" := PyFrame (table 5); "y" := PySeries (target label_y 5) ]}.

(** A target without a name. *)
Definition unnamed_target : @world Z :=
  fresh {[ "X" := PyFrame (table 5); "y" := PySeries (target None 5);
           "test_size" := PyInt 2 ]}.

(** A first call with a test size of 2, then the instance it leaves,
    called again with [X] only. *)
Definition first_call : @world Z :=
  fresh {[ "X" := PyFrame (table 5); "test_size" := PyInt 2 ]}.

Definition second_call : @world Z :=
  with_params {[ "X" := PyFrame (table 5) ]} (train_test_split first_call).2.

(** The same inputs on an instance and a generator with a past. *)
Definition used_instance : @world Z :=
  {| self := set_df (PyStr "old") __init__;
     params := <[ "note" := PyStr "kept" ]> (params fraction_only);
     np_random := 12345%Z |}.




(** A test fraction of 1.5, and a test size of 0 beside a train size
    of 5 on 5 rows. *)
Definition out_of_range : @world Z :=
  fresh {[ "X" := PyFrame (table 5); "test_size" := PyFloat 1.5 ]}.



(** A target of as many rows as [X] on another index: the labels
    1 .. n against 0 .. n-1. *)
Definition shifted_target (n : nat) : Series :=
  {| name := label_y;
     items := (λ i, (Z.of_nat (S i), CInt (Z.of_nat (i mod 2)))) <$> seq 0 n |}.

Definition other_index : @world Z :=
  fresh {[ "X" := PyFrame (table 3); "y" := PySeries (shifted_target 3);
           "test_size" := PyInt 1 ]}.

(** The same [params], [X] and a seed, on a fresh instance and on the
    instance a call with a test size of 5 on 5 rows has left. *)
Definition seeded : gmap string pyval :=
  {[ "X" := PyFrame (table 5); "random_state" := PyInt 0 ]}.

Definition fresh_seeded : @world Z := fresh seeded.

Definition reused_seeded : @world Z :=
  with_params seeded
    (train_test_split (fresh {[ "X" := PyFrame (table 5); "test_size" := PyInt 5 ]})).2.

(** [X] alone on the instance a call with a train size of 5 on 5 rows
    has left. *)
Definition reused_no_size : @world Z :=
  with_params {[ "X" := PyFrame (table 5) ]}
    (train_test_split (fresh {[ "X" := PyFrame (table 5); "train_size" := PyInt 5 ]})).2.
End Scenario.

(** ** Reasoning about the monad *)

(** Unfold the operations of the monad. *)
Ltac se_unfold :=
  unfold mbind, mret, SE_bind, SE_ret, result_bind, result_ret,
    raise, get, gets, modify, lift, when, zoom in *.

Lemma bind_inr {S A B} (m : SE S A) (f : A → SE S B) s a s' :
  m s = (inr a, s') → (m ≫= f) s = f a s'.
Proof. intros E. unfold mbind, SE_bind. by rewrite E. Qed.

Lemma bind_inl {S A B} (m : SE S A) (f : A → SE S B) s e s' :
  m s = (inl e, s') → (m ≫= f) s = (inl e, s').
Proof. intros E. unfold mbind, SE_bind. by rewrite E. Qed.

(** ** Validation *)

(** No value is an instance of both [int] and [float], so the first
    check of the branch for two sizes rejects every value. *)
Lemma validate_both_sizes_raises n s :
  validate_both_sizes n s = (inl TypeMismatchError_test_size, s).
Proof.
  unfold validate_both_sizes. se_unfold.
  by destruct (test_size s).
Qed.

(** Case analysis along the control flow of a monadic definition. *)
Ltac se_cases :=
  repeat first
    [ progress se_unfold | progress simpl in * | progress simplify_eq | done | case_match ].

Section stages.
Context {rng_state : Type} `{!NumpyRandom rng_state, !PandasConcat}.
Implicit Types w c : @world rng_state.

Lemma configure_spec w : configure w = (inr tt, configured w).
Proof.
  destruct w as [[d x yy ts tr rs] p g].
  unfold configure, load, configured, configured_self, on_self, with_self. se_unfold. simpl.
  repeat (simpl; match goal with
                 | |- context [match ?m !! ?k with _ => _ end] => destruct (m !! k)
                 end).
  all: reflexivity.
Qed.

Lemma shuffle_spec c :
  match draw (X (self c)) (y (self c)) (random_state (self c)) with
  | inr (d, g) =>
      shuffle c = (inr d, with_np_random g (on_self (set_df (PyFrame d)) c))
  | inl e =>
      ∃ c', shuffle c = (inl e, c') ∧ params c' = params c ∧
            same_fields (self c) (self c')
  end.
Proof.
  destruct c as [[d x yy ts tr rs] p g].
  unfold draw, shuffle, np_random_seed, np_random_permutation, on_self, with_self, with_np_random, set_df, same_fields.
  simpl.
  se_cases; eauto 10.
  all: try (eexists; split; [reflexivity|]; simpl; done).
Qed.

Lemma partition_spec d c :
  partition d c =
  (blocks (test_size (self c)) d, c).
Proof.
  unfold partition, blocks. se_cases.
Qed.

Lemma emit_spec train test c :
  emit train test c =
  match outputs (y (self c)) train test with
  | inl e => (inl e, c)
  | inr outs => (inr tt, with_params (write outs (params c)) c)
  end.
Proof.
  destruct c as [s p g].
  unfold emit, outputs, write, with_params. se_cases.
Qed.

Lemma train_test_split_spec w :
  let c := configured w in
  let v := __validate_input (self c) in
  match v.1 with
  | inl e => train_test_split w = (inl e, with_self v.2 c)
  | inr _ =>
      match split_pure v.2 with
      | inl e =>
          ∃ w', train_test_split w = (inl e, w') ∧ params w' = params w ∧
                same_fields v.2 (self w')
      | inr (s', g, outs) =>
          train_test_split w =
          (inr tt, {| self := s'; params := write outs (params w); np_random := g |})
      end
  end.
Proof.
  intros c v. unfold train_test_split.
  rewrite (bind_inr _ _ _ _ _ (configure_spec w)). fold c.
  assert (Hz : zoom self with_self __validate_input c = (v.1, with_self v.2 c)).
  { unfold zoom. fold v. by destruct v. }
  destruct v as [[e|[]] s1]; cbn [fst snd] in *.
  { by rewrite (bind_inl _ _ _ _ _ Hz). }
  rewrite (bind_inr _ _ _ _ _ Hz).
  unfold split_pure.
  pose proof (shuffle_spec (with_self s1 c)) as Hs. cbn [self with_self] in Hs.
  destruct (draw (X s1) (y s1) (random_state s1)) as [e|[d g]]; cbn [mbind result_bind].
  - destruct Hs as (c' & E & ? & ?). rewrite (bind_inl _ _ _ _ _ E). eauto.
  - rewrite (bind_inr _ _ _ _ _ Hs).
    pose proof (partition_spec d (with_np_random g (on_self (set_df (PyFrame d)) (with_self s1 c)))) as Hp.
    cbn [self with_self with_np_random on_self set_df test_size] in Hp.
    destruct (blocks (test_size s1) d) as [e|[train test]]; cbn [mbind result_bind].
    + rewrite (bind_inl _ _ _ _ _ Hp). eexists; split; [done|]. done.
    + rewrite (bind_inr _ _ _ _ _ Hp). rewrite emit_spec.
      cbn [self with_self with_np_random on_self set_df y].
      destruct (outputs (y s1) train test) as [e|outs]; cbn [mbind result_bind].
      * eexists; split; [done|]. done.
      * done.
Qed.

End stages.

(** ** Lists *)

Lemma mapM_omap {A B} (f : A → option B) l k :
  mapM f l = Some k → k = omap f l.
Proof.
  revert k. induction l as [|a l IH]; intros k; cbn.
  - by intros [= <-].
  - destruct (f a) as [b|] eqn:E; cbn; [|done].
    destruct (mapM f l) as [k'|]; cbn; [|done].
    intros [= <-]. by rewrite (IH k').
Qed.

Lemma mapM_take_drop {A B} (f : A → option B) l k n :
  mapM f l = Some k →
  take n k = omap f (take n l) ∧ drop n k = omap f (drop n l).
Proof.
  intros E%mapM_Some. split; apply mapM_omap, mapM_Some.
  - by apply Forall2_take.
  - by apply Forall2_drop.
Qed.

Lemma mapM_lookup_seq {A} (l : list A) :
  mapM (λ i, l !! i) (seq 0 (length l)) = Some l.
Proof.
  apply mapM_Some, Forall2_same_length_lookup. split; [by rewrite length_seq|].
  intros i j x [-> ?]%lookup_seq E. by rewrite <- E.
Qed.

Lemma mapM_lookup_perm {A} (l rows : list A) perm :
  perm ≡ₚ seq 0 (length l) → mapM (λ i, l !! i) perm = Some rows → rows ≡ₚ l.
Proof.
  intros Hp E%mapM_omap. subst rows. rewrite Hp.
  by rewrite <- (mapM_omap _ _ _ (mapM_lookup_seq l)).
Qed.

Lemma reset_index_cells d : (body (reset_index d)).*2 = (body d).*2.
Proof.
  unfold reset_index. cbn. rewrite fmap_imap.
  apply list_eq. intros i. rewrite list_lookup_imap, list_lookup_fmap.
  by destruct (body d !! i).
Qed.

Lemma cells_at_omap d ps :
  cells_at d ps = (omap (λ i, body d !! i) ps).*2.
Proof. unfold cells_at. by rewrite list_fmap_omap. Qed.

(** ** What a successful validation establishes *)

Ltac validate_unfold :=
  unfold __validate_input, validate_y, validate_both_sizes, validate_one_size,
    default_sizes.

Lemma is_None_true v : is_None v = true → v = PyNone.
Proof. by destruct v. Qed.

Lemma is_None_false v : is_None v = false → v ≠ PyNone.
Proof. by destruct v. Qed.

Lemma truth_true_not_None v : truth v = inr true → v ≠ PyNone.
Proof. by destruct v. Qed.

Lemma py_sub_not_None a b v : py_sub a b = inr v → v ≠ PyNone.
Proof.
  unfold py_sub. intros E ->.
  repeat (case_match; simplify_eq/=); by destruct (float_of_int _).
Qed.

Lemma series_rows v n :
  is_None v = false → shape0 v = inr n → isinstance_Series v = true →
  ∃ sy, v = PySeries sy ∧ length (items sy) = n.
Proof. destruct v; try done. intros _ [= <-] _. eauto. Qed.

Lemma validate_ok s s' :
  __validate_input s = (inr tt, s') →
  ∃ dX, X s = PyFrame dX ∧
    (y s = PyNone ∨ ∃ sy, y s = PySeries sy ∧ length (items sy) = length (body dX)) ∧
    isinstance_int (random_state s) = true ∧
    df s' = df s ∧ X s' = X s ∧ y s' = y s ∧ random_state s' = random_state s ∧
    test_size s' ≠ PyNone.
Proof.
  destruct s as [d x yy ts tr rs]. validate_unfold.
  se_cases.
  all: intros; simplify_eq; eexists; split; [done|]; cbn.
  all: repeat match goal with
         | H : negb _ = false |- _ => apply negb_false_iff in H
         | H : (_ =? _) = true |- _ => apply Nat.eqb_eq in H
         end.
  all: split; [first [left; by apply is_None_true
                     | right; unfold num_of_samples in *;
                       edestruct series_rows as (? & ? & ?); [done..|]; eauto with congruence]|].
  all: split_and!; try done.
  all: eauto using truth_true_not_None, py_sub_not_None.
Qed.

(** [__validate_input] does not read [self.df]. *)
Lemma validate_input_df v s :
  __validate_input (set_df v s) =
  ((__validate_input s).1, set_df v (__validate_input s).2).
Proof.
  destruct s as [d x yy ts tr rs]. validate_unfold. unfold set_df.
  se_cases.
Qed.

(** ** The shuffle and the two blocks *)

Section blocks.
Context {rng_state : Type} `{!NumpyRandom rng_state, !PandasConcat}.
Implicit Types w c : @world rng_state.

Lemma joined_table_rows dX vy :
  row_aligned dX vy → length (body (joined_table dX vy)) = length (body dX).
Proof.
  destruct vy; try done. cbn. intros E.
  rewrite length_zip_with. apply (f_equal length) in E.
  rewrite !length_fmap in E. lia.
Qed.

Lemma draw_inv dX vy vrs d g :
  draw (PyFrame dX) vy vrs = inr (d, g) →
  vy = PyNone ∨ (∃ sy, vy = PySeries sy) →
  row_aligned dX vy →
  ∃ perm rows,
    perm ≡ₚ seq 0 (length (body (joined_table dX vy))) ∧
    mapM (λ i, body (joined_table dX vy) !! i) perm = Some rows ∧
    (body d).*2 = rows.*2.
Proof.
  intros E Hy Ha.
  assert (Hj : (if negb (is_None vy) then concat_axis1 (PyFrame dX) vy
                else frame_of (PyFrame dX)) = inr (joined_table dX vy)).
  { destruct Hy as [->|[sy ->]]; [done|]. cbn in *. by rewrite bool_decide_eq_true_2. }
  unfold draw in E. rewrite Hj in E. clear Hj.
  destruct (as_index vrs) as [s|]; [|done].
  destruct (_ && _); [|done]. cbn in E.
  pose proof (np_permutation_perm (length (body (joined_table dX vy))) (np_seed s)) as Hp.
  destruct (np_permutation _ _) as [perm g']. cbn in Hp.
  unfold iloc_take in E.
  destruct (mapM _ perm) as [rows|] eqn:Em; [|done].
  cbn in E. injection E as <- <-.
  exists perm, rows. split_and!; [done..|].
  by rewrite reset_index_cells.
Qed.

Lemma blocks_inv vts d train test :
  blocks vts d = inr (train, test) → vts ≠ PyNone →
  ∃ k, body train = drop k (body d) ∧ body test = take k (body d).
Proof.
  unfold blocks. intros E Hn.
  destruct vts; try done; cbn in E.
  - injection E as <- <-. eauto.
  - destruct (float_of_int _); [done|]. cbn in E.
    destruct (int_of_float _); [done|]. cbn in E.
    injection E as <- <-. eauto.
Qed.

End blocks.

(** ** Failures of the validation *)





Lemma validate_y_ok dX vy s :
  y s = vy → target_ok dX vy → validate_y dX (num_of_samples dX) s = (inr tt, s).
Proof.
  intros <- [E|(sy & E & El)]; unfold validate_y; se_unfold; rewrite E; cbn; [done|].
  by rewrite El, Nat.eqb_refl.
Qed.

Lemma validate_both_set s dX :
  X s = PyFrame dX → target_ok dX (y s) →
  truth (test_size s) = inr true → truth (train_size s) = inr true →
  __validate_input s = (inl TypeMismatchError_test_size, s).
Proof.
  intros EX Hy Hts Htr. unfold __validate_input.
  unfold mbind at 1, SE_bind at 1, get at 1. rewrite EX.
  rewrite (bind_inr _ _ _ _ _ (validate_y_ok _ _ _ eq_refl Hy)).
  se_unfold. rewrite Hts, Htr. by rewrite validate_both_sizes_raises.
Qed.

Lemma check_random_state_state s0 s : (check_random_state s0 s).2 = s.
Proof. unfold check_random_state. se_unfold. by destruct (negb _). Qed.

Lemma validate_test_only s dX :
  X s = PyFrame dX → target_ok dX (y s) →
  truth (test_size s) = inr true → truth (train_size s) = inr false →
  __validate_input s =
  (validate_one_size (num_of_samples dX) "test_size" (test_size s) set_train_size;;
   check_random_state s) s.
Proof.
  intros EX Hy Hts Htr. unfold __validate_input.
  unfold mbind at 1, SE_bind at 1, get at 1. rewrite EX.
  rewrite (bind_inr _ _ _ _ _ (validate_y_ok _ _ _ eq_refl Hy)).
  se_unfold. by rewrite Hts, Htr.
Qed.

Lemma validate_train_only s dX :
  X s = PyFrame dX → target_ok dX (y s) →
  truth (test_size s) = inr false → truth (train_size s) = inr true →
  __validate_input s =
  (validate_one_size (num_of_samples dX) "train_size" (train_size s) set_test_size;;
   check_random_state s) s.
Proof.
  intros EX Hy Hts Htr. unfold __validate_input.
  unfold mbind at 1, SE_bind at 1, get at 1. rewrite EX.
  rewrite (bind_inr _ _ _ _ _ (validate_y_ok _ _ _ eq_refl Hy)).
  se_unfold. by rewrite Hts, Htr.
Qed.

Lemma validate_no_size s dX :
  X s = PyFrame dX → target_ok dX (y s) →
  truth (test_size s) = inr false → truth (train_size s) = inr false →
  __validate_input s = (default_sizes dX;; check_random_state s) s.
Proof.
  intros EX Hy Hts Htr. unfold __validate_input.
  unfold mbind at 1, SE_bind at 1, get at 1. rewrite EX.
  rewrite (bind_inr _ _ _ _ _ (validate_y_ok _ _ _ eq_refl Hy)).
  se_unfold. by rewrite Hts, Htr.
Qed.

Lemma one_size_float n field f set_other s :
  validate_one_size n field (PyFloat f) set_other s =
  if ((f <? 0) || (1 <? f))%float
  then (inl (ValueRangeError_fraction field), s)
  else (inr tt, set_other (PyFloat (1 - f)) s).
Proof.
  unfold validate_one_size. se_unfold. cbn.
  change (Z_to_float 0) with 0%float. change (Z_to_float 1) with 1%float.
  destruct (_ || _); [done|]. done.
Qed.

Lemma one_size_int n field z set_other s :
  validate_one_size n field (PyInt z) set_other s =
  if ((z <? 0) || (Z.of_nat n <? z))%Z
  then (inl (ValueRangeError_count field n), s)
  else (inr tt, set_other (PyInt (Z.of_nat n - z)) s).
Proof.
  unfold validate_one_size. se_unfold. cbn.
  destruct (_ || _); done.
Qed.

Lemma default_sizes_no_target dX s :
  y s = PyNone →
  default_sizes dX s =
  (inr tt, set_train_size (PyFloat 0.8) (set_test_size (PyFloat 0.2) s)).
Proof. intros E. unfold default_sizes. se_unfold. by rewrite E. Qed.

Lemma default_sizes_target dX sy s :
  y s = PySeries sy →
  let t := (1 / PrimFloat.sqrt (Z_to_float (Z.of_nat (length (columns dX)))))%float in
  default_sizes dX s =
  (inr tt, set_train_size (PyFloat (1 - t)) (set_test_size (PyFloat t) s)).
Proof. intros E. unfold default_sizes. se_unfold. rewrite E. cbn. done. Qed.

(** ** The call *)

Section call.
Context {rng_state : Type} `{!NumpyRandom rng_state, !PandasConcat}.
Implicit Types w c : @world rng_state.

Lemma with_self_self c : with_self (self c) c = c.
Proof. by destruct c. Qed.

(** A failed validation ends the call where the configuration left it. *)
Lemma validation_failure w e :
  __validate_input (self (configured w)) = (inl e, self (configured w)) →
  train_test_split w = (inl e, configured w).
Proof.
  intros E. pose proof (train_test_split_spec w) as Hs. cbv zeta in Hs.
  rewrite E in Hs. cbn [fst snd] in Hs. by rewrite with_self_self in Hs.
Qed.

Lemma failure_keeps_params w e w' :
  train_test_split w = (inl e, w') → params w' = params w.
Proof.
  intros Hrun. pose proof (train_test_split_spec w) as Hs. cbv zeta in Hs.
  destruct (__validate_input (self (configured w))) as [[e1|[]] s1]; cbn [fst snd] in Hs.
  { rewrite Hs in Hrun. by injection Hrun as _ <-. }
  destruct (split_pure s1) as [e1|[[s' g] outs]].
  - destruct Hs as (w1 & Hs & Hp & _). rewrite Hs in Hrun. by injection Hrun as _ <-.
  - by rewrite Hs in Hrun.
Qed.

Lemma same_fields_set_df s1 s2 : same_fields s1 s2 → s2 = set_df (df s2) s1.
Proof.
  destruct s1, s2. unfold same_fields, set_df. cbn. intros (-> & -> & -> & -> & ->). done.
Qed.

Lemma split_pure_df v s :
  split_pure (set_df v s) = split_pure s.
Proof. by destruct s. Qed.

Lemma run_same_fields w1 w2 :
  same_fields (self (configured w1)) (self (configured w2)) →
  same_outcome w1 w2 (train_test_split w1) (train_test_split w2).
Proof.
  intros Hf%same_fields_set_df.
  pose proof (train_test_split_spec w1) as H1.
  pose proof (train_test_split_spec w2) as H2. cbv zeta in H1, H2.
  rewrite Hf, validate_input_df in H2. cbn [fst snd] in H2.
  destruct (__validate_input (self (configured w1))) as [[e1|[]] s1]; cbn [fst snd] in *.
  { rewrite H1, H2. by split. }
  rewrite split_pure_df in H2.
  destruct (split_pure s1) as [e1|[[s' g] outs]].
  - destruct H1 as (? & -> & _). destruct H2 as (? & -> & _). by split.
  - rewrite H1, H2. split; [done|]. intros _. cbn. eauto.
Qed.

(** C1 (the code departs from the claim). Whenever validation reaches
    the branch for two sizes that are both set, whatever their kinds and
    their sum, the call ends with the TypeError of the first check of
    that branch (line 89 asks the size to be no int [or] no float), and
    nothing is shuffled or written. *)
Theorem C1_both_sizes_always_rejected w dX :
  let c := configured w in
  X (self c) = PyFrame dX → target_ok dX (y (self c)) →
  truth (test_size (self c)) = inr true →
  truth (train_size (self c)) = inr true →
  train_test_split w = (inl TypeMismatchError_test_size, c).
Proof.
  intros c EX Hy Hts Htr. apply validation_failure. by eapply validate_both_set.
Qed.



(** C6. A call that raises, at whatever stage, leaves [params] as the
    caller passed it: no output key is written. *)
Theorem C6_failure_writes_nothing w e w' :
  train_test_split w = (inl e, w') → params w' = params w.
Proof. apply failure_keeps_params. Qed.

(** C3, as amended. Two calls whose fields [X], [y], [test_size],
    [train_size] and [random_state] agree after configuration (as for
    equal [params] on two fresh instances, or for [params] that supply
    all five) end alike: the same exception or, on success, the same
    instance (the shuffled table included), the same generator state and
    the same entries written; the earlier [self.df], the earlier
    generator state and the other keys of [params] play no part. *)
Theorem C3_same_inputs_same_split w1 w2 :
  same_fields (self (configured w1)) (self (configured w2)) →
  same_outcome w1 w2 (train_test_split w1) (train_test_split w2).
Proof. apply run_same_fields. Qed.

(** C7, as amended. A call depends on the instance through the five
    fields only, as earlier calls (or [__init__]) left them for the keys
    absent from [params]: it ends like the call on a fresh instance whose
    [params] supply those five values, whatever the generator state. *)
Theorem C7_only_the_fields_carry_over w g :
  let w' := {| self := __init__; params := supplied (self w) (params w);
               np_random := g |} in
  same_outcome w w' (train_test_split w) (train_test_split w').
Proof.
  intros w'. apply run_same_fields.
  unfold same_fields, configured, configured_self, w', supplied. cbn.
  by simplify_map_eq.
Qed.
End call.

Lemma bind_check_state (m : SE Split unit) s0 s :
  ((m;; check_random_state s0) s).2 = (m s).2.
Proof.
  unfold mbind, SE_bind. destruct (m s) as [[e|[]] s']; [done|].
  apply check_random_state_state.
Qed.

(** The instance after a validation that finds both size fields at
    [None]. *)
Lemma validated_defaults s dX :
  X s = PyFrame dX → test_size s = PyNone → train_size s = PyNone →
  (y s = PyNone →
   (__validate_input s).2 =
   set_train_size (PyFloat 0.8) (set_test_size (PyFloat 0.2) s)) ∧
  (∀ sy, y s = PySeries sy → length (items sy) = num_of_samples dX →
   let t := (1 / PrimFloat.sqrt (Z_to_float (Z.of_nat (length (columns dX)))))%float in
   (__validate_input s).2 =
   set_train_size (PyFloat (1 - t)) (set_test_size (PyFloat t) s)).
Proof.
  intros EX Ets Etr. split.
  - intros Ey. rewrite (validate_no_size s dX), bind_check_state; try done.
    + by rewrite default_sizes_no_target.
    + left. done.
    + by rewrite Ets.
    + by rewrite Etr.
  - intros sy Ey El t. rewrite (validate_no_size s dX), bind_check_state; try done.
    + by rewrite (default_sizes_target dX sy).
    + right. eauto.
    + by rewrite Ets.
    + by rewrite Etr.
Qed.

Lemma one_size_complement n field v set_other s r :
  complement_of n field v = Some r →
  validate_one_size n field v set_other s =
  match r with
  | inl e => (inl e, s)
  | inr o => (inr tt, set_other o s)
  end.
Proof.
  destruct v; try done; unfold complement_of; intros [= <-].
  - rewrite one_size_int. by destruct (_ || _).
  - rewrite one_size_float. by destruct (_ || _).
Qed.

Section sizes.
Context {rng_state : Type} `{!NumpyRandom rng_state, !PandasConcat}.
Implicit Types w c : @world rng_state.

(** X12. When one size is set to a value that is true (so not 0 nor
    0.0) and the other is unset or false, and the set one is a float or
    an int: a float below 0 or above 1, or an int below 0 or above the
    row count n, ends the call with the ValueError of its range, before
    any shuffling; otherwise validation stores the complement in the
    other field, the float 1 - v for a float v and n - v for an int
    v. *)
Theorem X12_truthy_size_gives_the_complement w dX r :
  let c := configured w in
  let n := num_of_samples dX in
  X (self c) = PyFrame dX → target_ok dX (y (self c)) →
  (truth (test_size (self c)) = inr true →
   truth (train_size (self c)) = inr false →
   complement_of n "test_size" (test_size (self c)) = Some r →
   match r with
   | inl e => train_test_split w = (inl e, c)
   | inr o => (__validate_input (self c)).2 = set_train_size o (self c)
   end) ∧
  (truth (test_size (self c)) = inr false →
   truth (train_size (self c)) = inr true →
   complement_of n "train_size" (train_size (self c)) = Some r →
   match r with
   | inl e => train_test_split w = (inl e, c)
   | inr o => (__validate_input (self c)).2 = set_test_size o (self c)
   end).
Proof.
  intros c n EX Hy. subst n. split; intros Hts Htr Hr.
  - pose proof (one_size_complement _ _ _ set_train_size (self c) r Hr) as Ho.
    destruct r as [e|o].
    + apply validation_failure. fold c.
      rewrite (validate_test_only _ dX) by done.
      by rewrite (bind_inl _ _ _ _ _ Ho).
    + rewrite (validate_test_only _ dX) by done.
      by rewrite bind_check_state, Ho.
  - pose proof (one_size_complement _ _ _ set_test_size (self c) r Hr) as Ho.
    destruct r as [e|o].
    + apply validation_failure. fold c.
      rewrite (validate_train_only _ dX) by done.
      by rewrite (bind_inl _ _ _ _ _ Ho).
    + rewrite (validate_train_only _ dX) by done.
      by rewrite bind_check_state, Ho.
Qed.

(** The sizes a call leaves in the instance are those the validation
    left, however the call ends. *)
Lemma call_keeps_validated_sizes w :
  let v := __validate_input (self (configured w)) in
  let s' := self (train_test_split w).2 in
  test_size s' = test_size v.2 ∧ train_size s' = train_size v.2.
Proof.
  intros v s'. subst v s'.
  pose proof (train_test_split_spec w) as Hs. cbv zeta in Hs.
  destruct (__validate_input (self (configured w))) as [[e|[]] s1]; cbn [fst snd] in *.
  { by rewrite Hs. }
  destruct (split_pure s1) as [e|[[s2 g] outs]] eqn:Ep.
  - destruct Hs as (w1 & -> & _ & (_ & _ & Hts & Htr & _)). done.
  - rewrite Hs. cbn [snd self]. unfold split_pure in Ep.
    destruct (draw _ _ _) as [|[d g']]; [done|]. cbn in Ep.
    destruct (blocks _ _) as [|[train test]]; [done|]. cbn in Ep.
    destruct (outputs _ _ _) as [|outs']; [done|]. cbn in Ep.
    by injection Ep as <- _ _.
Qed.

(** C5, as amended. When [params] supplies neither size and the
    instance holds none (as a fresh one), the call leaves the default
    sizes in the instance: 0.2 for [test_size] and 0.8 for [train_size]
    when there is no target; with a Series target on the rows of an [X]
    of k columns, the float 1 / sqrt(k) for [test_size] and 1 minus
    that for [train_size]. *)
Theorem C5_default_sizes w dX :
  params w !! "test_size" = None → params w !! "train_size" = None →
  test_size (self w) = PyNone → train_size (self w) = PyNone →
  X (self (configured w)) = PyFrame dX →
  let s' := self (train_test_split w).2 in
  (y (self (configured w)) = PyNone →
   test_size s' = PyFloat 0.2 ∧ train_size s' = PyFloat 0.8) ∧
  (∀ sy, y (self (configured w)) = PySeries sy →
   length (items sy) = num_of_samples dX →
   let t := (1 / PrimFloat.sqrt (Z_to_float (Z.of_nat (length (columns dX)))))%float in
   test_size s' = PyFloat t ∧ train_size s' = PyFloat (1 - t)).
Proof.
  intros Hpt Hpr Hst Hsr EX s'.
  assert (Ets : test_size (self (configured w)) = PyNone).
  { unfold configured, configured_self. cbn. by rewrite Hpt. }
  assert (Etr : train_size (self (configured w)) = PyNone).
  { unfold configured, configured_self. cbn. by rewrite Hpr. }
  destruct (call_keeps_validated_sizes w) as [H1 H2]. fold s' in H1, H2.
  destruct (validated_defaults _ dX EX Ets Etr) as [Hn Hy].
  split.
  - intros Ey. rewrite H1, H2, (Hn Ey). done.
  - intros sy Ey El t. rewrite H1, H2, (Hy sy Ey El). done.
Qed.

(** X13. On a successful call whose target, when there is one, carries
    the index labels of [X] (n rows): the rows are permuted
    by a bijection [perm] of [0, n); the test block holds the rows at the first k positions of
    [perm] and the train block those at the others, so the two blocks
    come from disjoint positions, their lengths add up to n, and their
    rows together are the rows of the joined table, each once; the
    entries written into [params] are built from these two blocks. *)
Theorem X13_aligned_split_is_a_partition w w' dX :
  train_test_split w = (inr tt, w') →
  X (self w') = PyFrame dX →
  row_aligned dX (y (self w')) →
  split_partitions w w' dX.
Proof.
  intros Hrun HX Ha. unfold split_partitions.
  set (joined := joined_table dX (y (self w'))). set (n := num_of_samples dX).
  pose proof (train_test_split_spec w) as Hs. cbv zeta in Hs.
  destruct (__validate_input (self (configured w))) as [[e|[]] s1] eqn:Ev; cbn [fst snd] in Hs.
  { by rewrite Hs in Hrun. }
  apply validate_ok in Ev as (dX' & _ & Hy & _ & _ & HX1 & Hy1 & _ & Hts).
  destruct (split_pure s1) as [e|[[s' g] outs]] eqn:Ep.
  { destruct Hs as (? & Hs & _). by rewrite Hs in Hrun. }
  rewrite Hs in Hrun. injection Hrun as <-. cbn [self params] in *.
  unfold split_pure in Ep.
  destruct (draw _ _ _) as [|[d g']] eqn:Ed; [done|]. cbn in Ep.
  destruct (blocks _ _) as [|[train test]] eqn:Eb; [done|]. cbn in Ep.
  destruct (outputs _ _ _) as [|outs'] eqn:Eo; [done|]. cbn in Ep.
  injection Ep as <- <- <-. cbn [X y set_df] in *.
  rewrite HX in Ed.
  assert (Hy' : y s1 = PyNone ∨ ∃ sy, y s1 = PySeries sy).
  { rewrite Hy1. destruct Hy as [|(sy & ? & _)]; eauto. }
  apply draw_inv in Ed as (perm & rows & Hp & Em & Hc); [|done..].
  fold joined in Hp, Em.
  assert (Hn : length (body joined) = n) by by apply joined_table_rows.
  rewrite Hn in Hp.
  apply blocks_inv in Eb as (k & Htr & Hte); [|done].
  exists perm, k, train, test, outs'.
  destruct (mapM_take_drop _ _ _ k Em) as [Et Edr].
  assert (Hrows : rows ≡ₚ body joined).
  { eapply mapM_lookup_perm; [|done]. by rewrite Hn. }
  assert (Hlen : length (body d) = n).
  { apply (f_equal length) in Hc. rewrite !length_fmap in Hc.
    rewrite Hc, Hrows. done. }
  split_and!; try done.
  - by rewrite Hte, fmap_take, Hc, <- fmap_take, Et, cells_at_omap.
  - by rewrite Htr, fmap_drop, Hc, <- fmap_drop, Edr, cells_at_omap.
  - assert (Hnd : NoDup (take k perm ++ drop k perm)).
    { rewrite take_drop, Hp. apply NoDup_seq. }
    apply NoDup_app in Hnd as (_ & Hd & _). intros i ??. by eapply Hd.
  - rewrite Htr, Hte, length_drop, length_take, Hlen. lia.
  - rewrite Htr, Hte, <- fmap_app, (Permutation_app_comm (drop _ _)), take_drop.
    by rewrite Hc, Hrows.
Qed.
End sizes.


(** ** The claims on concrete calls *)

(** The scenario with test_size=0.3 and train_size=0.7 is rejected. *)
Lemma C1_witness :
  train_test_split Scenario.both_sizes =
  (inl TypeMismatchError_test_size, configured Scenario.both_sizes).
Proof.
  apply (C1_both_sizes_always_rejected Scenario.both_sizes (Reference.table 10)).
  - reflexivity.
  - right. eexists. split; reflexivity.
  - reflexivity.
  - reflexivity.
Defined.

(** The split of 10 rows with a named target and the test fraction 0.3. *)
Lemma X13_witness :
  split_partitions Scenario.fraction_only (train_test_split Scenario.fraction_only).2
    (Reference.table 10).
Proof.
  apply X13_aligned_split_is_a_partition.
  - vm_compute. reflexivity.
  - vm_compute. reflexivity.
  - vm_compute. reflexivity.
Defined.

(** The row counts of the specification's scenario with the test
    fraction 0.3 on 10 rows and a named target. *)
Example scenario_row_counts :
  let p := params (train_test_split Scenario.fraction_only).2 in
  Reference.rows_of (p !! "X_train") = Some 7 ∧
  Reference.rows_of (p !! "X_test") = Some 3 ∧
  Reference.rows_of (p !! "y_train") = Some 7 ∧
  Reference.rows_of (p !! "y_test") = Some 3.
Proof. vm_compute. done. Qed.

(** A fresh instance and a used one, on the same five inputs. *)
Lemma C3_witness :
  same_outcome Scenario.fraction_only Scenario.used_instance
    (train_test_split Scenario.fraction_only)
    (train_test_split Scenario.used_instance).
Proof.
  apply C3_same_inputs_same_split.
  vm_compute. done.
Defined.

(** C4 (the code departs from the claim). A test size of 0 alone on 5
    rows, a value of the documented range, is not complemented to a
    train size of 5: the truth test at line 116 takes it for a size that
    is not set, the defaults 0.2 and 0.8 replace both sizes and the test
    block has one row. *)
Lemma C4_zero_test_size_takes_the_defaults :
  let w := Scenario.zero_test_size in
  let r := train_test_split w in
  test_size (self (configured w)) = PyInt 0 ∧
  train_size (self (configured w)) = PyNone ∧
  r.1 = inr tt ∧
  test_size (self r.2) = PyFloat 0.2 ∧
  train_size (self r.2) = PyFloat 0.8 ∧
  Reference.rows_of (params r.2 !! "test") = Some 1.
Proof. vm_compute. done. Qed.

(** test_size=0.3 alone gives train_size=0.7, train_size=10 alone on 100
    rows gives test_size=90, and test_size=1.5 is out of range. *)
Lemma X12_witness :
  (let s := self (configured Scenario.fraction_only) in
   (__validate_input s).2 = set_train_size (PyFloat 0.7) s) ∧
  (let s := self (configured Scenario.count_only) in
   (__validate_input s).2 = set_test_size (PyInt 90) s) ∧
  train_test_split Scenario.out_of_range =
  (inl (ValueRangeError_fraction "test_size"), configured Scenario.out_of_range).
Proof.
  split_and!.
  - apply (proj1 (X12_truthy_size_gives_the_complement
                    Scenario.fraction_only (Reference.table 10) (inr (PyFloat 0.7))
                    eq_refl (or_intror (ex_intro _ _ (conj eq_refl eq_refl)))));
      reflexivity.
  - apply (proj2 (X12_truthy_size_gives_the_complement
                    Scenario.count_only (Reference.table 100) (inr (PyInt 90))
                    eq_refl (or_introl eq_refl)));
      reflexivity.
  - apply (proj1 (X12_truthy_size_gives_the_complement
                    Scenario.out_of_range (Reference.table 5)
                    (inl (ValueRangeError_fraction "test_size"))
                    eq_refl (or_introl eq_refl)));
      reflexivity.
Defined.

(** The defaults on a fresh instance, without a target and with one on
    two columns. *)
Lemma C5_witness :
  (let s' := self (train_test_split Scenario.no_size).2 in
   test_size s' = PyFloat 0.2 ∧ train_size s' = PyFloat 0.8) ∧
  (let s' := self (train_test_split Scenario.no_size_target).2 in
   let t := (1 / PrimFloat.sqrt 2)%float in
   test_size s' = PyFloat t ∧ train_size s' = PyFloat (1 - t)).
Proof.
  split.
  - apply (proj1 (C5_default_sizes Scenario.no_size (Reference.table 5)
                    eq_refl eq_refl eq_refl eq_refl eq_refl)).
    reflexivity.
  - apply (proj2 (C5_default_sizes Scenario.no_size_target (Reference.table 5)
                    eq_refl eq_refl eq_refl eq_refl eq_refl)
                 (Reference.target Scenario.label_y 5)); reflexivity.
Defined.

(** A call that supplies no size on an instance that holds the sizes of
    an earlier call (0 and 5) keeps them: the defaults are not set. *)
Lemma C5_counterexample :
  let w := Scenario.reused_no_size in
  let r := train_test_split w in
  params w !! "test_size" = None ∧ params w !! "train_size" = None ∧
  y (self (configured w)) = PyNone ∧
  r.1 = inr tt ∧
  test_size (self r.2) = PyInt 0 ∧ train_size (self r.2) = PyInt 5.
Proof. vm_compute. done. Qed.

(** C2 (the code departs from the claim). A named target of 3 rows on
    the labels 1, 2, 3 beside an [X] of 3 rows on the labels 0, 1, 2
    passes validation, which compares the row counts; the join pairs the
    rows by label, so the shuffled table has a row for each of the four
    labels and the two blocks hold 3 + 1 = 4 rows for n = 3. *)
Lemma C2_other_index_gives_more_rows :
  let w := Scenario.other_index in
  let r := train_test_split w in
  shape0 (X (self (configured w))) = inr 3 ∧
  shape0 (y (self (configured w))) = inr 3 ∧
  r.1 = inr tt ∧
  Reference.rows_of (params r.2 !! "X_train") = Some 3 ∧
  Reference.rows_of (params r.2 !! "X_test") = Some 1 ∧
  Reference.rows_of (params r.2 !! "y_train") = Some 3 ∧
  Reference.rows_of (params r.2 !! "y_test") = Some 1.
Proof. vm_compute. done. Qed.

(** The same [params] on a fresh instance and on a used one: both calls
    succeed, with test blocks of 1 row and of 5 rows. *)
Lemma C3_counterexample :
  let a := Scenario.fresh_seeded in
  let b := Scenario.reused_seeded in
  params a = params b ∧
  (train_test_split a).1 = inr tt ∧ (train_test_split b).1 = inr tt ∧
  Reference.rows_of (params (train_test_split a).2 !! "test") = Some 1 ∧
  Reference.rows_of (params (train_test_split b).2 !! "test") = Some 5.
Proof. vm_compute. done. Qed.

(** A target without a name fails after the shuffle; [params] is as the
    caller passed it. *)
Lemma C6_witness :
  (train_test_split Scenario.unnamed_target).1 = inl (MissingNameError "None") ∧
  params (train_test_split Scenario.unnamed_target).2 = params Scenario.unnamed_target.
Proof.
  split; [by vm_compute|].
  apply (C6_failure_writes_nothing Scenario.unnamed_target (MissingNameError "None")).
  vm_compute. reflexivity.
Defined.

(** The same [params] on a used instance and on a fresh one: the used
    one holds the sizes 2 and 3 of its first call and the call is
    rejected, the fresh one takes the defaults. *)
Lemma C7_counterexample :
  params Scenario.second_call = params Scenario.no_size ∧
  test_size (self Scenario.second_call) = PyInt 2 ∧
  train_size (self Scenario.second_call) = PyInt 3 ∧
  (train_test_split Scenario.second_call).1 = inl TypeMismatchError_test_size ∧
  (train_test_split Scenario.no_size).1 = inr tt ∧
  test_size (self (train_test_split Scenario.no_size).2) = PyFloat 0.2 ∧
  train_size (self (train_test_split Scenario.no_size).2) = PyFloat 0.8.
Proof. vm_compute. done. Qed.





(** The specification's scenario of 5 rows without target and an int
    test size of 2. *)
Example scenario_5_rows_test_size_2 :
  let w' := (train_test_split
               (Reference.fresh {[ "X" := PyFrame (Reference.table 5);
                                   "test_size" := PyInt 2 ]})) in
  w'.1 = inr tt ∧
  Reference.rows_of (params w'.2 !! "test") = Some 2 ∧
  Reference.rows_of (params w'.2 !! "train") = Some 3.
Proof. vm_compute. done. Qed.

(** * Further properties of the code *)

(** ** Predicates of the statements *)

(** The index labels of a table or a series. *)
Definition index_of (v : pyval) : option (list Z) :=
  match v with
  | PyFrame d => Some (body d).*1
  | PySeries s => Some (items s).*1
  | _ => None
  end.

(** The keys a successful call writes, by the presence of a target. *)
Definition written_keys (vy : pyval) : list string :=
  if is_None vy then ["train"; "test"]
  else ["X_train"; "X_test"; "y_train"; "y_test"].

(** The keys that hold the test block. *)
Definition is_test_key (key : string) : bool :=
  bool_decide (key ∈ ["test"; "X_test"; "y_test"]).

(** A value [np.random.seed] accepts. *)
Definition valid_seed (v : pyval) : Prop :=
  ∃ s, as_index v = Some s ∧ (0 ≤ s < 2 ^ 32)%Z.

(** The rows of a feature table paired with the values of a target. *)
Definition pairs (dX : DataFrame) (sy : Series) : list (list cell * cell) :=
  zip (body dX).*2 (items sy).*2.

(** The cells of a joined row, taken apart at position [m]. *)
Definition apart (m : nat) (cells : list cell) : list cell * cell :=
  ((filter (λ ic, ic.1 ∉ [m]) (imap pair cells)).*2,
   default (CFloat nan) (cells !! m)).

(** ** Lists, tables and values *)

Lemma mapM_lookup_perm_Some {A} (l : list A) perm :
  perm ≡ₚ seq 0 (length l) → ∃ rows, mapM (λ i, l !! i) perm = Some rows.
Proof.
  intros Hp. apply mapM_is_Some, Forall_forall. intros i Hi.
  rewrite Hp in Hi. apply elem_of_seq in Hi. cbn.
  apply lookup_lt_is_Some. lia.
Qed.

Lemma reset_index_labels d :
  (body (reset_index d)).*1 = Z.of_nat <$> seq 0 (length (body d)).
Proof.
  unfold reset_index. cbn. rewrite fmap_imap.
  apply list_eq. intros i. rewrite list_lookup_imap, list_lookup_fmap.
  destruct (body d !! i) as [r|] eqn:E; cbn.
  - rewrite lookup_seq_lt by by eapply lookup_lt_Some. done.
  - rewrite lookup_seq_ge by by apply lookup_ge_None. done.
Qed.

Lemma write_lookup_notin outs (p : gmap string pyval) key :
  key ∉ outs.*1 → write outs p !! key = p !! key.
Proof.
  unfold write. revert p. induction outs as [|[k v] outs IH]; intros p Hk; [done|].
  cbn in *. apply not_elem_of_cons in Hk as [? ?].
  rewrite IH by done. by rewrite lookup_insert_ne.
Qed.

Lemma write_lookup_in outs (p : gmap string pyval) key :
  key ∈ outs.*1 → is_Some (write outs p !! key).
Proof.
  unfold write. revert p. induction outs as [|[k v] outs IH]; intros p Hk.
  { by apply elem_of_nil in Hk. }
  cbn in *. destruct (decide (key ∈ outs.*1)) as [Hin|Hout]; [by apply IH|].
  apply elem_of_cons in Hk as [->|?]; [|done].
  fold (write outs (<[k:=v]> p)). rewrite write_lookup_notin by done.
  rewrite lookup_insert_eq. eauto.
Qed.

Lemma outputs_keys vy train test outs :
  outputs vy train test = inr outs → outs.*1 = written_keys vy.
Proof.
  unfold outputs. destruct vy; try done.
  - by intros [= <-].
  - destruct (name s) as [c|]; [|done]. destruct (name_truth _); [|done].
    destruct (getitem train c); [done|]. cbn. destruct (drop_columns train c); [done|]. cbn.
    destruct (getitem test c); [done|]. cbn. destruct (drop_columns test c); [done|]. cbn.
    by intros [= <-].
Qed.

Lemma getitem_index d c v : getitem d c = inr v → index_of v = Some (body d).*1.
Proof.
  unfold getitem. destruct (column_positions d c) as [|i [|j ps]]; [done|..];
    intros [= <-]; cbn; f_equal; rewrite <- list_fmap_compose; by apply list_fmap_ext.
Qed.

Lemma drop_columns_index d c d' :
  drop_columns d c = inr d' → (body d').*1 = (body d).*1.
Proof.
  unfold drop_columns. case_bool_decide; [done|]. intros [= <-]. cbn.
  rewrite <- list_fmap_compose. by apply list_fmap_ext.
Qed.

Lemma filter_imap_below {A} (P : nat * A → Prop) `{!∀ x, Decision (P x)}
    (f : nat → nat) (l : list A) :
  (∀ i x, l !! i = Some x → P (f i, x)) →
  filter P (imap (λ i x, (f i, x)) l) = imap (λ i x, (f i, x)) l.
Proof.
  revert f. induction l as [|a l IH]; intros f HP; [done|].
  rewrite imap_cons, filter_cons_True by apply (HP 0 a eq_refl).
  f_equal. apply (IH (f ∘ S)). intros i x Hi. apply (HP (S i) x Hi).
Qed.

Lemma filter_imap_none {A} (P : nat * A → Prop) `{!∀ x, Decision (P x)}
    (f : nat → nat) (l : list A) :
  (∀ i x, l !! i = Some x → ¬ P (f i, x)) →
  filter P (imap (λ i x, (f i, x)) l) = [].
Proof.
  revert f. induction l as [|a l IH]; intros f HP; [done|].
  rewrite imap_cons, filter_cons_False by apply (HP 0 a eq_refl).
  apply (IH (f ∘ S)). intros i x Hi. apply (HP (S i) x Hi).
Qed.

Lemma imap_pair_snoc {A} (l : list A) x :
  imap pair (l ++ [x]) = imap pair l ++ [(length l, x)].
Proof. rewrite imap_app. cbn. by rewrite Nat.add_0_r. Qed.

Lemma imap_pair_snd {A} (l : list A) : (imap pair l).*2 = l.
Proof.
  rewrite fmap_imap. apply list_eq. intros i.
  rewrite list_lookup_imap. by destruct (l !! i).
Qed.

Lemma apart_snoc xs yc :
  apart (length xs) (xs ++ [yc]) = (xs, yc).
Proof.
  unfold apart. f_equal.
  - rewrite imap_pair_snoc, filter_app.
    rewrite (filter_imap_below _ id xs).
    + rewrite filter_cons_False, filter_nil, app_nil_r by (cbn; set_solver).
      apply imap_pair_snd.
    + intros i x Hi%lookup_lt_Some. cbn. apply not_elem_of_cons. split; [lia|set_solver].
  - by rewrite lookup_app_r, Nat.sub_diag.
Qed.

Lemma column_positions_joined cols c body0 :
  c ∉ cols →
  column_positions {| columns := cols ++ [c]; body := body0 |} c = [length cols].
Proof.
  intros Hc. unfold column_positions. cbn [columns].
  rewrite imap_pair_snoc, filter_app.
  rewrite (filter_imap_none _ id cols).
  - by rewrite filter_cons_True, filter_nil.
  - intros i x Hi Hx. cbn in Hx. subst x. apply Hc. by eapply list_elem_of_lookup_2.
Qed.

Lemma filter_columns_joined (cols : list label) c :
  c ∉ cols → filter (λ l, l ≠ c) (cols ++ [c]) = cols.
Proof.
  intros Hc. rewrite filter_app, filter_cons_False, filter_nil, app_nil_r by naive_solver.
  induction cols as [|a cols IH]; [done|].
  apply not_elem_of_cons in Hc as [? ?].
  rewrite filter_cons_True by done. f_equal. by apply IH.
Qed.

Lemma zip_fmap_same {A B C} (f : A → B) (g : A → C) (l : list A) :
  zip (f <$> l) (g <$> l) = (λ x, (f x, g x)) <$> l.
Proof. induction l; cbn; by f_equal. Qed.

(** Taking a joined table apart gives back the feature part and the
    target part. *)
Lemma separate_joined t cols c :
  columns t = cols ++ [c] → c ∉ cols →
  ∃ Xt yt,
    getitem t c = inr (PySeries yt) ∧ drop_columns t c = inr Xt ∧
    columns Xt = cols ∧ name yt = Some c ∧
    pairs Xt yt = apart (length cols) <$> (body t).*2.
Proof.
  intros Ecols Hc. destruct t as [tc tb]. cbn in Ecols. subst tc.
  unfold getitem, drop_columns. rewrite column_positions_joined by done.
  rewrite bool_decide_eq_false_2 by done.
  eexists _, _. split; [done|]. split; [done|]. cbn [columns name body items].
  split; [by apply filter_columns_joined|]. split; [done|].
  unfold pairs. cbn [body items].
  rewrite <- !list_fmap_compose.
  rewrite zip_fmap_same. by apply list_fmap_ext.
Qed.

Lemma apart_join_rows dX sy :
  Forall (λ r, length r.2 = length (columns dX)) (body dX) →
  apart (length (columns dX)) <$> (body (join_rows dX sy)).*2 = pairs dX sy.
Proof.
  unfold pairs, join_rows. cbn [body]. generalize (length (columns dX)) as m.
  intros m. generalize (items sy) as ys.
  induction (body dX) as [|[l xs] rows IH]; intros ys Hwf; [done|].
  destruct ys as [|[l' yc] ys]; [done|].
  apply Forall_cons in Hwf as [Hx Hwf]. cbn in Hx. cbn.
  rewrite <- Hx at 1. rewrite apart_snoc. f_equal. by apply IH.
Qed.

Lemma py_sub_int_inv c v o :
  py_sub (PyInt c) v = inr o →
  (∃ x, as_num v = Some (NInt x) ∧ o = PyInt (c - x)) ∨
  (∃ f cf, v = PyFloat f ∧ o = PyFloat (cf - f)).
Proof.
  unfold py_sub. cbn. destruct (as_num v) as [[x|f]|] eqn:E; [| |done].
  - intros [= <-]. left. eauto.
  - destruct v; try done. cbn in E. injection E as ->.
    destruct (float_of_int c) as [|cf]; [done|]. cbn. intros [= <-]. right. eauto.
Qed.

Lemma truth_nonzero_int z : (z ≠ 0)%Z → truth (PyInt z) = inr true.
Proof. intros. cbn. by destruct (Z.eqb_spec z 0). Qed.

Lemma valid_seed_int v : valid_seed v → isinstance_int v = true.
Proof. intros (s & Hs & _). by destruct v. Qed.

Lemma check_random_state_ok s0 s :
  valid_seed (random_state s0) → check_random_state s0 s = (inr tt, s).
Proof.
  intros Hv%valid_seed_int. unfold check_random_state. by rewrite Hv.
Qed.

(** ** The validation *)

(** X1. After a successful validation both sizes are set to numbers of
    the same kind (both floats, or both ints), and two ints add up to
    the row count. *)
Theorem X1_validated_sizes s s' dX :
  __validate_input s = (inr tt, s') → X s = PyFrame dX →
  ∃ a b, as_num (test_size s') = Some a ∧ as_num (train_size s') = Some b ∧
    isinstance_float (test_size s') = isinstance_float (train_size s') ∧
    (∀ x y, a = NInt x → b = NInt y → (x + y)%Z = Z.of_nat (num_of_samples dX)).
Proof.
  destruct s as [d x yy ts tr rs]. validate_unfold. intros Hv EX. cbn in EX. subst x.
  revert Hv. se_cases; intros; simplify_eq; cbn.
  all: repeat match goal with
         | H : py_sub (PyInt _) _ = inr _ |- _ =>
             apply py_sub_int_inv in H as [(? & ? & ->)|(? & ? & -> & ->)]
         end; cbn in *; simplify_eq.
  all: try (eexists _, _; split_and!; [done..|]; intros; simplify_eq; lia).
  all: first [by destruct ts | by destruct tr].
Qed.

(** X2. A failed validation leaves the instance as it was, unless the
    failure is the TypeError for [random_state]. *)
Theorem X2_failed_validation_keeps_instance s e s' :
  __validate_input s = (inl e, s') →
  s' = s ∨ (e = TypeMismatchError_random_state ∧
            isinstance_int (random_state s) = false).
Proof.
  destruct s as [d x yy ts tr rs]. validate_unfold.
  se_cases; intros; simplify_eq; eauto.
  all: right; split; [done|]; by apply negb_true_iff.
Qed.

(** X3. [random_state] is checked last: when validation would pass with
    an int there, a value that is no int fails with the TypeError for
    it, on an instance whose sizes are already derived or defaulted. *)
Theorem X3_random_state_checked_last s s1 :
  isinstance_int (random_state s) = false →
  __validate_input (set_random_state (PyInt 0) s) = (inr tt, s1) →
  __validate_input s =
  (inl TypeMismatchError_random_state, set_random_state (random_state s) s1).
Proof.
  destruct s as [d x yy ts tr rs]. cbn [random_state]. intros Hrs.
  validate_unfold. unfold set_random_state.
  se_cases; intros; simplify_eq; rewrite ?Hrs in *; try done.
Qed.

(** ** The call *)

Section further.
Context {rng_state : Type} `{!NumpyRandom rng_state, !PandasConcat}.
Implicit Types w c : @world rng_state.

(** The call once the table is shuffled: the blocks and the entries, on
    the instance that holds the shuffled table. *)
Lemma train_test_split_after_draw w s1 d g :
  __validate_input (self (configured w)) = (inr tt, s1) →
  draw (X s1) (y s1) (random_state s1) = inr (d, g) →
  let w1 := {| self := set_df (PyFrame d) s1; params := params w; np_random := g |} in
  train_test_split w =
  match blocks (test_size s1) d ≫= λ '(train, test), outputs (y s1) train test with
  | inl e => (inl e, w1)
  | inr outs => (inr tt, with_params (write outs (params w)) w1)
  end.
Proof.
  intros Ev Ed w1. unfold train_test_split.
  rewrite (bind_inr _ _ _ _ _ (configure_spec w)).
  assert (Hz : zoom self with_self __validate_input (configured w) =
               (inr tt, with_self s1 (configured w))).
  { unfold zoom. by rewrite Ev. }
  rewrite (bind_inr _ _ _ _ _ Hz).
  pose proof (shuffle_spec (with_self s1 (configured w))) as Hs.
  cbn [self with_self] in Hs. rewrite Ed in Hs.
  rewrite (bind_inr _ _ _ _ _ Hs).
  pose proof (partition_spec d (with_np_random g (on_self (set_df (PyFrame d))
                (with_self s1 (configured w))))) as Hp.
  cbn [self with_self with_np_random on_self set_df test_size] in Hp.
  destruct (blocks (test_size s1) d) as [e|[train test]]; cbn [mbind result_bind].
  - by rewrite (bind_inl _ _ _ _ _ Hp).
  - rewrite (bind_inr _ _ _ _ _ Hp). rewrite emit_spec.
    cbn [self with_self with_np_random on_self set_df y].
    by destruct (outputs (y s1) train test) as [e|outs].
Qed.

(** With a valid seed and a target on the index of [X], the shuffle
    goes through: the shuffled table has the columns of the joined
    table, its rows in another order, and the index 0, 1, ... *)
Lemma draw_succeeds dX vy vrs :
  vy = PyNone ∨ (∃ sy, vy = PySeries sy) → row_aligned dX vy → valid_seed vrs →
  ∃ d g, draw (PyFrame dX) vy vrs = inr (d, g) ∧
    columns d = columns (joined_table dX vy) ∧
    (body d).*2 ≡ₚ (body (joined_table dX vy)).*2 ∧
    (body d).*1 = Z.of_nat <$> seq 0 (length (body dX)).
Proof.
  intros Hy Ha (s & Hs & Hr).
  assert (Hj : (if negb (is_None vy) then concat_axis1 (PyFrame dX) vy
                else frame_of (PyFrame dX)) = inr (joined_table dX vy)).
  { destruct Hy as [->|[sy ->]]; [done|]. cbn in *. by rewrite bool_decide_eq_true_2. }
  unfold draw. rewrite Hs, Hj.
  assert ((0 <=? s)%Z && (s <? 2 ^ 32)%Z = true) as -> by (apply andb_true_intro; lia).
  cbn [mbind result_bind].
  pose proof (np_permutation_perm (length (body (joined_table dX vy))) (np_seed s)) as Hp.
  destruct (np_permutation _ _) as [perm g]. cbn [fst] in Hp.
  destruct (mapM_lookup_perm_Some _ _ Hp) as [rows Em].
  unfold iloc_take. rewrite Em. cbn [mbind result_bind].
  eexists _, _. split; [done|]. 
  pose proof (mapM_lookup_perm _ _ _ Hp Em) as Hrows.
  split_and!.
  - done.
  - rewrite reset_index_cells. cbn [body]. by rewrite Hrows.
  - rewrite reset_index_labels. cbn [body].
    by rewrite (Permutation_length Hrows), joined_table_rows.
Qed.

(** The stages of a successful call. *)
Lemma success_stages w w' :
  train_test_split w = (inr tt, w') →
  ∃ s1 d g train test outs,
    __validate_input (self (configured w)) = (inr tt, s1) ∧
    draw (X s1) (y s1) (random_state s1) = inr (d, g) ∧
    blocks (test_size s1) d = inr (train, test) ∧
    outputs (y s1) train test = inr outs ∧
    w' = {| self := set_df (PyFrame d) s1; params := write outs (params w);
            np_random := g |}.
Proof.
  intros Hrun. pose proof (train_test_split_spec w) as Hs. cbv zeta in Hs.
  destruct (__validate_input (self (configured w))) as [[e|[]] s1] eqn:Ev;
    cbn [fst snd] in Hs.
  { by rewrite Hs in Hrun. }
  destruct (split_pure s1) as [e|[[s' g] outs]] eqn:Ep.
  { destruct Hs as (? & Hs & _). by rewrite Hs in Hrun. }
  rewrite Hs in Hrun. injection Hrun as <-.
  unfold split_pure in Ep.
  destruct (draw _ _ _) as [|[d g']] eqn:Ed; [done|]. cbn in Ep.
  destruct (blocks _ _) as [|[train test]] eqn:Eb; [done|]. cbn in Ep.
  destruct (outputs _ _ _) as [|outs'] eqn:Eo; [done|]. cbn in Ep.
  injection Ep as <- <- <-.
  exists s1, d, g', train, test, outs'. by split_and!.
Qed.

(** The split of a table without target at an int test size [k] that
    validation left in the instance. *)
Lemma split_at_count w s1 dX k :
  __validate_input (self (configured w)) = (inr tt, s1) →
  X s1 = PyFrame dX → y s1 = PyNone → test_size s1 = PyInt k →
  (0 ≤ k ≤ Z.of_nat (num_of_samples dX))%Z →
  valid_seed (random_state s1) →
  ∃ w' train test,
    train_test_split w = (inr tt, w') ∧
    test_size (self w') = test_size s1 ∧ train_size (self w') = train_size s1 ∧
    params w' = <["test" := PyFrame test]> (<["train" := PyFrame train]> (params w)) ∧
    columns train = columns dX ∧ columns test = columns dX ∧
    length (body test) = Z.to_nat k ∧
    length (body train) = num_of_samples dX - Z.to_nat k.
Proof.
  intros Ev EX Ey Ets Hk Hseed.
  destruct (draw_succeeds dX PyNone (random_state s1)) as (d & g & Ed & Hc & _ & Hi);
    [by left|done|done|].
  rewrite <- EX, <- Ey in Ed.
  pose proof (train_test_split_after_draw w s1 d g Ev Ed) as Hrun. cbv zeta in Hrun.
  rewrite Ets, Ey in Hrun. cbn in Hrun.
  assert (Hlen : length (body d) = num_of_samples dX).
  { apply (f_equal length) in Hi. by rewrite !length_fmap, length_seq in Hi. }
  eexists _, (iloc_from d (Some k)), (iloc_upto d (Some k)).
  split; [exact Hrun|]. unfold num_of_samples in *.
  cbn [self with_params set_df test_size train_size params columns body
       iloc_from iloc_upto slice_bound].
  rewrite Hlen. destruct (Z.ltb_spec k 0); [lia|].
  split_and!; try done.
  - rewrite length_take. lia.
  - rewrite length_drop. lia.
Qed.

(** X4. An int [test_size] alone, between 1 and the row count, on a table
    without target: the call succeeds and the test block has exactly
    that many rows, the train block the others. *)
Theorem X4_test_count_is_honoured w dX z :
  let c := configured w in
  let n := num_of_samples dX in
  X (self c) = PyFrame dX → y (self c) = PyNone →
  test_size (self c) = PyInt z → (0 < z ≤ Z.of_nat n)%Z →
  truth (train_size (self c)) = inr false →
  valid_seed (random_state (self c)) →
  ∃ w' train test,
    train_test_split w = (inr tt, w') ∧
    test_size (self w') = PyInt z ∧
    train_size (self w') = PyInt (Z.of_nat n - z) ∧
    params w' = <["test" := PyFrame test]> (<["train" := PyFrame train]> (params w)) ∧
    columns train = columns dX ∧ columns test = columns dX ∧
    length (body test) = Z.to_nat z ∧
    length (body train) = n - Z.to_nat z.
Proof.
  intros c n EX Ey Ets Hz Htr Hseed. subst c n.
  assert (Ev : __validate_input (self (configured w)) =
               (inr tt, set_train_size (PyInt (Z.of_nat (num_of_samples dX) - z)) (self (configured w)))).
  { rewrite (validate_test_only _ dX); [|done|by left|rewrite Ets; apply truth_nonzero_int; lia|done].
    rewrite Ets.
    assert (Ho : validate_one_size (num_of_samples dX) "test_size" (PyInt z)
                   set_train_size (self (configured w)) =
                 (inr tt, set_train_size (PyInt (Z.of_nat (num_of_samples dX) - z)) (self (configured w)))).
    { rewrite one_size_int.
      destruct (Z.ltb_spec z 0); [lia|]. destruct (Z.ltb_spec (Z.of_nat (num_of_samples dX)) z); [lia|].
      done. }
    rewrite (bind_inr _ _ _ _ _ Ho). by apply check_random_state_ok. }
  destruct (split_at_count w _ dX z Ev) as (w' & train & test & Hrun & H1 & H2 & H3);
    try done; [lia|].
  exists w', train, test.
  cbn [test_size train_size set_train_size] in H1, H2. by rewrite H1, H2.
Qed.

(** X5. An int [train_size] alone, between 1 and the row count, on a
    table without target: the call succeeds and the train block has
    exactly that many rows, the test block the others. *)
Theorem X5_train_count_is_honoured w dX z :
  let c := configured w in
  let n := num_of_samples dX in
  X (self c) = PyFrame dX → y (self c) = PyNone →
  truth (test_size (self c)) = inr false →
  train_size (self c) = PyInt z → (0 < z ≤ Z.of_nat n)%Z →
  valid_seed (random_state (self c)) →
  ∃ w' train test,
    train_test_split w = (inr tt, w') ∧
    test_size (self w') = PyInt (Z.of_nat n - z) ∧
    train_size (self w') = PyInt z ∧
    params w' = <["test" := PyFrame test]> (<["train" := PyFrame train]> (params w)) ∧
    columns train = columns dX ∧ columns test = columns dX ∧
    length (body test) = n - Z.to_nat z ∧
    length (body train) = Z.to_nat z.
Proof.
  intros c n EX Ey Hts Etr Hz Hseed. subst c n.
  assert (Ev : __validate_input (self (configured w)) =
               (inr tt, set_test_size (PyInt (Z.of_nat (num_of_samples dX) - z)) (self (configured w)))).
  { rewrite (validate_train_only _ dX); [|done|by left|done|rewrite Etr; apply truth_nonzero_int; lia].
    rewrite Etr.
    assert (Ho : validate_one_size (num_of_samples dX) "train_size" (PyInt z)
                   set_test_size (self (configured w)) =
                 (inr tt, set_test_size (PyInt (Z.of_nat (num_of_samples dX) - z)) (self (configured w)))).
    { rewrite one_size_int.
      destruct (Z.ltb_spec z 0); [lia|]. destruct (Z.ltb_spec (Z.of_nat (num_of_samples dX)) z); [lia|].
      done. }
    rewrite (bind_inr _ _ _ _ _ Ho). by apply check_random_state_ok. }
  destruct (split_at_count w _ dX (Z.of_nat (num_of_samples dX) - z) Ev) as (w' & train & test & Hrun & H1 & H2 & H3 & H4 & H5 & H6 & H7);
    try done; [lia|].
  exists w', train, test.
  cbn [test_size train_size set_test_size] in H1, H2. rewrite H1, H2, H6, H7, Etr.
  split_and!; try done; lia.
Qed.

(** X6. A successful call changes [params] at the output keys only: the
    two keys [train] and [test] without a target, the four keys
    [X_train], [X_test], [y_train], [y_test] with one; every other key,
    the inputs included, is as the caller passed it. *)
Theorem X6_only_output_keys_change w w' :
  train_test_split w = (inr tt, w') →
  (∀ key, key ∈ written_keys (y (self w')) → is_Some (params w' !! key)) ∧
  (∀ key, key ∉ written_keys (y (self w')) → params w' !! key = params w !! key).
Proof.
  intros (s1 & d & g & train & test & outs & _ & _ & _ & Ho%outputs_keys & ->)%success_stages.
  cbn [self params set_df y]. rewrite <- Ho. split; intros key Hk.
  - by apply write_lookup_in.
  - by apply write_lookup_notin.
Qed.

Lemma draw_index vX vy vrs d g :
  draw vX vy vrs = inr (d, g) →
  (body d).*1 = Z.of_nat <$> seq 0 (length (body d)).
Proof.
  unfold draw. destruct (as_index vrs); [|done]. destruct (_ && _); [|done].
  destruct (if negb _ then _ else _) as [|j]; [done|]. cbn.
  destruct (np_permutation _ _) as [perm g'].
  destruct (iloc_take j perm) as [|d0]; [done|]. cbn. intros [= <- <-].
  rewrite reset_index_labels. f_equal.
  unfold reset_index. cbn. by rewrite length_imap.
Qed.

(** X7. The index is reset on the shuffled table, before it is cut: the
    test block carries the index 0 .. k-1 and the train block the index
    k .. n-1, in every entry written. *)
Theorem X7_blocks_keep_the_shuffled_index w w' :
  train_test_split w = (inr tt, w') →
  ∃ k n outs, k ≤ n ∧
    params w' = write outs (params w) ∧
    outs.*1 = written_keys (y (self w')) ∧
    ∀ key v, (key, v) ∈ outs →
      index_of v = Some (Z.of_nat <$>
        (if is_test_key key then seq 0 k else seq k (n - k))).
Proof.
  intros (s1 & d & g & train & test & outs & Ev & Ed & Eb & Ho & ->)%success_stages.
  apply validate_ok in Ev as (_ & _ & _ & _ & _ & _ & _ & _ & Hts).
  apply draw_index in Ed.
  apply blocks_inv in Eb as (k & Htr & Hte); [|done].
  set (n := length (body d)) in *.
  exists (k `min` n), n, outs. cbn [self params set_df y].
  split; [lia|]. split; [done|]. split; [by eapply outputs_keys|].
  assert (Hitest : (body test).*1 = Z.of_nat <$> seq 0 (k `min` n)).
  { rewrite Hte, fmap_take, Ed, <- fmap_take, take_seq. done. }
  assert (Hitrain : (body train).*1 = Z.of_nat <$> seq (k `min` n) (n - k `min` n)).
  { rewrite Htr, fmap_drop, Ed, <- fmap_drop, drop_seq.
    destruct (decide (k ≤ n)).
    - by rewrite Nat.min_l by done.
    - rewrite Nat.min_r by lia. replace (n - k) with 0 by lia.
      by replace (n - n) with 0 by lia. }
  assert (Hk : is_test_key "train" = false ∧ is_test_key "test" = true ∧
               is_test_key "X_train" = false ∧ is_test_key "X_test" = true ∧
               is_test_key "y_train" = false ∧ is_test_key "y_test" = true)
    by by vm_compute.
  destruct Hk as (K1 & K2 & K3 & K4 & K5 & K6).
  intros key v Hin. unfold outputs in Ho.
  destruct (y s1) as [| | | | | | |sy]; try done.
  - injection Ho as <-.
    repeat (apply elem_of_cons in Hin as [[= -> ->]|Hin]);
      [| |by apply elem_of_nil in Hin]; cbn [index_of].
    + by rewrite K1, Hitrain.
    + by rewrite K2, Hitest.
  - destruct (name sy) as [c|]; [|done]. destruct (name_truth _); [|done].
    destruct (getitem train c) as [|ytr] eqn:E1; [done|]. cbn in Ho.
    destruct (drop_columns train c) as [|Xtr] eqn:E2; [done|]. cbn in Ho.
    destruct (getitem test c) as [|yte] eqn:E3; [done|]. cbn in Ho.
    destruct (drop_columns test c) as [|Xte] eqn:E4; [done|]. cbn in Ho.
    injection Ho as <-.
    apply getitem_index in E1, E3. apply drop_columns_index in E2, E4.
    repeat (apply elem_of_cons in Hin as [[= -> ->]|Hin]);
      [| | | |by apply elem_of_nil in Hin]; cbn [index_of].
    + by rewrite K3, E2, Hitrain.
    + by rewrite K4, E4, Hitest.
    + by rewrite K5, E1, Hitrain.
    + by rewrite K6, E3, Hitest.
Qed.

End further.

Lemma blocks_columns vts d train test :
  blocks vts d = inr (train, test) →
  columns train = columns d ∧ columns test = columns d.
Proof.
  unfold blocks. intros E.
  destruct vts; cbn in E; try done.
  - by injection E as <- <-.
  - by injection E as <- <-.
  - destruct (float_of_int _); [done|]. cbn in E.
    destruct (int_of_float _); [done|]. cbn in E.
    by injection E as <- <-.
Qed.

Lemma int_of_float_nan_mul f :
  int_of_float (nan * f) = inl (ValueError "cannot convert float NaN to integer").
Proof. unfold int_of_float. by rewrite mul_spec. Qed.

Section further_calls.
Context {rng_state : Type} `{!NumpyRandom rng_state, !PandasConcat}.
Implicit Types w : @world rng_state.

Lemma draw_columns dX vy vrs d g :
  draw (PyFrame dX) vy vrs = inr (d, g) →
  vy = PyNone ∨ (∃ sy, vy = PySeries sy) → row_aligned dX vy →
  columns d = columns (joined_table dX vy).
Proof.
  intros E Hy Ha.
  assert (Hj : (if negb (is_None vy) then concat_axis1 (PyFrame dX) vy
                else frame_of (PyFrame dX)) = inr (joined_table dX vy)).
  { destruct Hy as [->|[sy ->]]; [done|]. cbn in *. by rewrite bool_decide_eq_true_2. }
  unfold draw in E. rewrite Hj in E.
  destruct (as_index vrs) as [s|]; [|done].
  destruct (_ && _); [|done]. cbn in E.
  destruct (np_permutation _ _) as [perm g'].
  unfold iloc_take in E.
  destruct (mapM _ perm) as [rows|]; [|done].
  cbn in E. by injection E as <- <-.
Qed.

(** X8. With a named target on the index of a rectangular [X] that has
    no column of that name, the split takes the joined table apart
    again: [X_train] and [X_test] have the columns of [X], [y_train] and
    [y_test] are series under the name of the target, and each row of
    features still stands beside its own label: the pairs of the two
    blocks together are the pairs of [X] and [y], each once. *)
Theorem X8_split_keeps_rows_paired w w' dX sy nm :
  train_test_split w = (inr tt, w') →
  X (self w') = PyFrame dX → y (self w') = PySeries sy →
  (body dX).*1 = (items sy).*1 →
  name sy = Some nm → nm ∉ columns dX →
  Forall (λ r, length r.2 = length (columns dX)) (body dX) →
  ∃ X_train X_test y_train y_test,
    params w' !! "X_train" = Some (PyFrame X_train) ∧
    params w' !! "X_test" = Some (PyFrame X_test) ∧
    params w' !! "y_train" = Some (PySeries y_train) ∧
    params w' !! "y_test" = Some (PySeries y_test) ∧
    columns X_train = columns dX ∧ columns X_test = columns dX ∧
    name y_train = Some nm ∧ name y_test = Some nm ∧
    pairs X_train y_train ++ pairs X_test y_test ≡ₚ pairs dX sy.
Proof.
  intros (s1 & d & g & train & test & outs & Ev & Ed & Eb & Ho & ->)%success_stages.
  cbn [self params set_df X y]. intros EX Ey Ha En Hc Hwf.
  apply validate_ok in Ev as (_ & _ & _ & _ & _ & _ & _ & _ & Hts).
  rewrite EX, Ey in Ed.
  pose proof (draw_columns _ _ _ _ _ Ed (or_intror (ex_intro _ sy eq_refl)) Ha) as Hcols.
  apply draw_inv in Ed as (perm & rows & Hp & Em & Hcells); [|by eauto|done].
  pose proof (mapM_lookup_perm _ _ _ Hp Em) as Hrows.
  cbn [joined_table] in *.
  destruct (blocks_columns _ _ _ _ Eb) as [Hctr Hcte].
  apply blocks_inv in Eb as (k & Htr & Hte); [|done].
  assert (Hcj : columns (join_rows dX sy) = columns dX ++ [nm]).
  { unfold join_rows, series_label. cbn. by rewrite En. }
  rewrite Hcols, Hcj in Hctr, Hcte.
  destruct (separate_joined train _ nm Hctr Hc) as (Xtr & ytr & G1 & D1 & C1 & N1 & P1).
  destruct (separate_joined test _ nm Hcte Hc) as (Xte & yte & G2 & D2 & C2 & N2 & P2).
  rewrite Ey in Ho. cbn [outputs] in Ho. rewrite En in Ho.
  destruct (name_truth (Some nm)); [|done].
  rewrite G1, D1, G2, D2 in Ho. cbn in Ho. injection Ho as <-.
  exists Xtr, Xte, ytr, yte. unfold write. cbn [foldl fst snd].
  split_and!; try done; try by simplify_map_eq.
  rewrite P1, P2, <- fmap_app, Htr, Hte, <- fmap_app.
  rewrite (Permutation_app_comm (drop _ _)), take_drop, Hcells.
  rewrite <- (apart_join_rows dX sy) by done.
  by rewrite Hrows.
Qed.
(** X9. A target on the index of [X] whose name is missing or false
    (None, the empty string, 0) passes validation; the call raises the
    ValueError for the missing name only after it has derived the sizes,
    seeded the generator and stored the joined, shuffled table in
    [self.df]. Stated for an int [test_size] alone. *)
Theorem X9_unnamed_target_fails_after_the_shuffle w dX sy z :
  let c := configured w in
  let n := num_of_samples dX in
  X (self c) = PyFrame dX → y (self c) = PySeries sy →
  (body dX).*1 = (items sy).*1 → name_truth (name sy) = false →
  test_size (self c) = PyInt z → (0 < z ≤ Z.of_nat n)%Z →
  truth (train_size (self c)) = inr false →
  valid_seed (random_state (self c)) →
  ∃ d g,
    train_test_split w =
    (inl (MissingNameError (name_shown (name sy))),
     {| self := set_df (PyFrame d) (set_train_size (PyInt (Z.of_nat n - z)) (self c));
        params := params w; np_random := g |}) ∧
    (body d).*2 ≡ₚ (body (join_rows dX sy)).*2.
Proof.
  intros c n EX Ey Ha Hnm Ets Hz Htr Hseed. subst c n.
  assert (Hlen : length (items sy) = num_of_samples dX).
  { apply (f_equal length) in Ha. by rewrite !length_fmap in Ha. }
  assert (Ev : __validate_input (self (configured w)) =
               (inr tt, set_train_size (PyInt (Z.of_nat (num_of_samples dX) - z))
                          (self (configured w)))).
  { rewrite (validate_test_only _ dX);
      [|done|right; rewrite Ey; eauto|rewrite Ets; apply truth_nonzero_int; lia|done].
    rewrite Ets.
    assert (Ho : validate_one_size (num_of_samples dX) "test_size" (PyInt z)
                   set_train_size (self (configured w)) =
                 (inr tt, set_train_size (PyInt (Z.of_nat (num_of_samples dX) - z))
                            (self (configured w)))).
    { rewrite one_size_int.
      destruct (Z.ltb_spec z 0); [lia|].
      destruct (Z.ltb_spec (Z.of_nat (num_of_samples dX)) z); [lia|]. done. }
    rewrite (bind_inr _ _ _ _ _ Ho). by apply check_random_state_ok. }
  destruct (draw_succeeds dX (PySeries sy) (random_state (self (configured w))))
    as (d & g & Ed & _ & Hcells & _); [by eauto|done|done|].
  rewrite <- EX, <- Ey in Ed.
  pose proof (train_test_split_after_draw w _ d g Ev Ed) as Hrun. cbv zeta in Hrun.
  cbn [test_size y set_train_size] in Hrun. rewrite Ets, Ey in Hrun.
  cbn [blocks positional_bound mbind result_bind outputs] in Hrun.
  exists d, g. split; [|done]. rewrite Hrun.
  destruct (name sy) as [nm|]; [|done]. by rewrite Hnm.
Qed.

(** X10. A NaN [test_size] passes the range check of the validation
    (it is neither below 0 nor above 1) and is complemented by NaN; the
    call then fails at the cut, on [int(nan)], after the shuffle. *)
Theorem X10_nan_test_size_passes_the_range_check w dX nf :
  let c := configured w in
  X (self c) = PyFrame dX → y (self c) = PyNone →
  test_size (self c) = PyFloat nan →
  truth (train_size (self c)) = inr false →
  valid_seed (random_state (self c)) →
  float_of_int (Z.of_nat (num_of_samples dX)) = inr nf →
  __validate_input (self c) = (inr tt, set_train_size (PyFloat nan) (self c)) ∧
  ∃ d g,
    train_test_split w =
    (inl (ValueError "cannot convert float NaN to integer"),
     {| self := set_df (PyFrame d) (set_train_size (PyFloat nan) (self c));
        params := params w; np_random := g |}).
Proof.
  intros c EX Ey Ets Htr Hseed Hnf. subst c.
  assert (Ev : __validate_input (self (configured w)) =
               (inr tt, set_train_size (PyFloat nan) (self (configured w)))).
  { rewrite (validate_test_only _ dX); [|done|by left|by rewrite Ets|done].
    rewrite Ets.
    assert (Ho : validate_one_size (num_of_samples dX) "test_size" (PyFloat nan)
                   set_train_size (self (configured w)) =
                 (inr tt, set_train_size (PyFloat nan) (self (configured w)))).
    { by rewrite one_size_float. }
    rewrite (bind_inr _ _ _ _ _ Ho). by apply check_random_state_ok. }
  split; [done|].
  destruct (draw_succeeds dX PyNone (random_state (self (configured w))))
    as (d & g & Ed & _ & _ & Hi); [by left|done|done|].
  rewrite <- EX, <- Ey in Ed.
  pose proof (train_test_split_after_draw w _ d g Ev Ed) as Hrun. cbv zeta in Hrun.
  cbn [test_size y set_train_size] in Hrun. rewrite Ets in Hrun.
  assert (Hlen : length (body d) = num_of_samples dX).
  { apply (f_equal length) in Hi. by rewrite !length_fmap, length_seq in Hi. }
  unfold blocks in Hrun. rewrite Hlen, Hnf in Hrun.
  cbn [mbind result_bind] in Hrun. rewrite int_of_float_nan_mul in Hrun.
  by exists d, g.
Qed.

(** X11. A table without rows, target and sizes is split into two tables
    without rows: validation sets the sizes 0.2 and 0.8 and both blocks
    are the empty table itself. *)
Theorem X11_empty_table_splits_into_empty_tables w cols :
  let c := configured w in
  let dX := {| columns := cols; body := [] |} in
  X (self c) = PyFrame dX → y (self c) = PyNone →
  test_size (self c) = PyNone → train_size (self c) = PyNone →
  valid_seed (random_state (self c)) →
  ∃ g,
    train_test_split w =
    (inr tt,
     {| self := set_df (PyFrame dX)
                  (set_train_size (PyFloat 0.8) (set_test_size (PyFloat 0.2) (self c)));
        params := <["test" := PyFrame dX]> (<["train" := PyFrame dX]> (params w));
        np_random := g |}).
Proof.
  intros c dX EX Ey Ets Etr Hseed. subst c.
  assert (Ev : __validate_input (self (configured w)) =
               (inr tt, set_train_size (PyFloat 0.8)
                          (set_test_size (PyFloat 0.2) (self (configured w))))).
  { rewrite (validate_no_size _ dX); [|done|by left|by rewrite Ets|by rewrite Etr].
    rewrite (bind_inr _ _ _ _ _ (default_sizes_no_target dX _ Ey)).
    by apply check_random_state_ok. }
  destruct (draw_succeeds dX PyNone (random_state (self (configured w))))
    as (d & g & Ed & Hc & _ & Hi); [by left|done|done|].
  rewrite <- EX, <- Ey in Ed.
  pose proof (train_test_split_after_draw w _ d g Ev Ed) as Hrun. cbv zeta in Hrun.
  cbn [test_size y set_train_size set_test_size] in Hrun. rewrite Ey in Hrun.
  assert (d = dX) as ->.
  { destruct d as [dc db]. cbn in Hc, Hi. subst dc.
    apply fmap_nil_inv in Hi. by subst db. }
  exists g. rewrite Hrun. done.
Qed.
End further_calls.

(** ** The further properties on concrete calls *)

Module Edge.
Import Reference.

(** A [random_state] that is a string, on an instance otherwise ready
    for the default sizes. *)
Definition string_seed : Split :=
  set_random_state (PyStr "seed") (self (configured Scenario.no_size)).

(** A NaN test size on 5 rows. *)
Definition nan_test_size : @world Z :=
  fresh {[ "X" := PyFrame (table 5); "test_size" := PyFloat nan ]}.

(** A table of one column and no row. *)
Definition no_rows : DataFrame := {| columns := [LStr "a"]; body := [] |}.

Definition empty_table : @world Z := fresh {[ "X" := PyFrame no_rows ]}.

End Edge.

Lemma default_seed_valid : valid_seed (PyInt 69).
Proof. exists 69%Z. split; [reflexivity|lia]. Defined.

Lemma X1_witness :
  let s := self (configured Scenario.count_only) in
  let s' := (__validate_input s).2 in
  ∃ a b, as_num (test_size s') = Some a ∧ as_num (train_size s') = Some b ∧
    isinstance_float (test_size s') = isinstance_float (train_size s') ∧
    (∀ x y, a = NInt x → b = NInt y →
            (x + y)%Z = Z.of_nat (num_of_samples (Reference.table 100))).
Proof.
  intros s s'. apply (X1_validated_sizes s s' (Reference.table 100)).
  - vm_compute. reflexivity.
  - reflexivity.
Defined.

Lemma X2_witness :
  let s := self (configured Scenario.out_of_range) in
  (__validate_input s).2 = s ∨
  (ValueRangeError_fraction "test_size" = TypeMismatchError_random_state ∧
   isinstance_int (random_state s) = false).
Proof.
  intros s.
  apply (X2_failed_validation_keeps_instance s (ValueRangeError_fraction "test_size")).
  vm_compute. reflexivity.
Defined.

Lemma X3_witness :
  let s1 := (__validate_input (set_random_state (PyInt 0) Edge.string_seed)).2 in
  __validate_input Edge.string_seed =
  (inl TypeMismatchError_random_state, set_random_state (PyStr "seed") s1).
Proof.
  intros s1. apply (X3_random_state_checked_last Edge.string_seed s1).
  - reflexivity.
  - vm_compute. reflexivity.
Defined.

Lemma X4_witness :
  let w := Scenario.first_call in
  ∃ w' train test,
    train_test_split w = (inr tt, w') ∧
    test_size (self w') = PyInt 2 ∧
    train_size (self w') = PyInt (Z.of_nat (num_of_samples (Reference.table 5)) - 2) ∧
    params w' = <["test" := PyFrame test]> (<["train" := PyFrame train]> (params w)) ∧
    columns train = columns (Reference.table 5) ∧
    columns test = columns (Reference.table 5) ∧
    length (body test) = Z.to_nat 2 ∧
    length (body train) = num_of_samples (Reference.table 5) - Z.to_nat 2.
Proof.
  intros w.
  apply (X4_test_count_is_honoured w (Reference.table 5) 2);
    try reflexivity; [by vm_compute|exact default_seed_valid].
Defined.

Lemma X5_witness :
  let w := Scenario.count_only in
  ∃ w' train test,
    train_test_split w = (inr tt, w') ∧
    test_size (self w') = PyInt (Z.of_nat (num_of_samples (Reference.table 100)) - 10) ∧
    train_size (self w') = PyInt 10 ∧
    params w' = <["test" := PyFrame test]> (<["train" := PyFrame train]> (params w)) ∧
    columns train = columns (Reference.table 100) ∧
    columns test = columns (Reference.table 100) ∧
    length (body test) = num_of_samples (Reference.table 100) - Z.to_nat 10 ∧
    length (body train) = Z.to_nat 10.
Proof.
  intros w.
  apply (X5_train_count_is_honoured w (Reference.table 100) 10);
    try reflexivity; [by vm_compute|exact default_seed_valid].
Defined.

Lemma X6_witness :
  let w := Scenario.fraction_only in
  let w' := (train_test_split w).2 in
  (∀ key, key ∈ written_keys (y (self w')) → is_Some (params w' !! key)) ∧
  (∀ key, key ∉ written_keys (y (self w')) → params w' !! key = params w !! key).
Proof.
  intros w w'. apply (X6_only_output_keys_change w w').
  vm_compute. reflexivity.
Defined.

Lemma X7_witness :
  let w := Scenario.fraction_only in
  let w' := (train_test_split w).2 in
  ∃ k n outs, k ≤ n ∧
    params w' = write outs (params w) ∧
    outs.*1 = written_keys (y (self w')) ∧
    ∀ key v, (key, v) ∈ outs →
      index_of v = Some (Z.of_nat <$>
        (if is_test_key key then seq 0 k else seq k (n - k))).
Proof.
  intros w w'. apply (X7_blocks_keep_the_shuffled_index w w').
  vm_compute. reflexivity.
Defined.

(** The train block of the scenario carries the index 3 .. 9. *)
Example scenario_train_index :
  index_of <$> (params (train_test_split Scenario.fraction_only).2 !! "X_train") =
  Some (Some [3; 4; 5; 6; 7; 8; 9]%Z).
Proof. vm_compute. reflexivity. Qed.

Lemma X8_witness :
  let w := Scenario.fraction_only in
  let w' := (train_test_split w).2 in
  let dX := Reference.table 10 in
  let sy := Reference.target Scenario.label_y 10 in
  ∃ X_train X_test y_train y_test,
    params w' !! "X_train" = Some (PyFrame X_train) ∧
    params w' !! "X_test" = Some (PyFrame X_test) ∧
    params w' !! "y_train" = Some (PySeries y_train) ∧
    params w' !! "y_test" = Some (PySeries y_test) ∧
    columns X_train = columns dX ∧ columns X_test = columns dX ∧
    name y_train = Some (LStr "label") ∧ name y_test = Some (LStr "label") ∧
    pairs X_train y_train ++ pairs X_test y_test ≡ₚ pairs dX sy.
Proof.
  intros w w' dX sy.
  apply (X8_split_keeps_rows_paired w w' dX sy (LStr "label")).
  - vm_compute. reflexivity.
  - vm_compute. reflexivity.
  - vm_compute. reflexivity.
  - vm_compute. reflexivity.
  - reflexivity.
  - apply (bool_decide_unpack _). vm_compute. exact I.
  - apply (bool_decide_unpack _). vm_compute. exact I.
Defined.

Lemma X9_witness :
  let w := Scenario.unnamed_target in
  let c := configured w in
  let dX := Reference.table 5 in
  let sy := Reference.target None 5 in
  ∃ d g,
    train_test_split w =
    (inl (MissingNameError (name_shown (name sy))),
     {| self := set_df (PyFrame d)
                  (set_train_size (PyInt (Z.of_nat (num_of_samples dX) - 2)) (self c));
        params := params w; np_random := g |}) ∧
    (body d).*2 ≡ₚ (body (join_rows dX sy)).*2.
Proof.
  intros w c dX sy.
  apply (X9_unnamed_target_fails_after_the_shuffle w dX sy 2);
    try reflexivity; [by vm_compute|exact default_seed_valid].
Defined.

Lemma X10_witness :
  let w := Edge.nan_test_size in
  let c := configured w in
  __validate_input (self c) = (inr tt, set_train_size (PyFloat nan) (self c)) ∧
  ∃ d g,
    train_test_split w =
    (inl (ValueError "cannot convert float NaN to integer"),
     {| self := set_df (PyFrame d) (set_train_size (PyFloat nan) (self c));
        params := params w; np_random := g |}).
Proof.
  intros w c.
  apply (X10_nan_test_size_passes_the_range_check w (Reference.table 5) 5%float);
    try reflexivity; exact default_seed_valid.
Defined.

Lemma X11_witness :
  let w := Edge.empty_table in
  let c := configured w in
  ∃ g,
    train_test_split w =
    (inr tt,
     {| self := set_df (PyFrame Edge.no_rows)
                  (set_train_size (PyFloat 0.8) (set_test_size (PyFloat 0.2) (self c)));
        params := <["test" := PyFrame Edge.no_rows]>
                    (<["train" := PyFrame Edge.no_rows]> (params w));
        np_random := g |}).
Proof.
  intros w c.
  apply (X11_empty_table_splits_into_empty_tables w [LStr "a"]);
    try reflexivity; exact default_seed_valid.
Defined.
